(** * Readiness evaluation of cluster resources

    A shallow embedding of the packages [internal/pkg/client/unstructured]
    (field accessors over an untyped tree) and [internal/pkg/status]
    (per-kind readiness evaluators, the generic evaluator, the dispatcher
    and the batch loop [Status.Do]), followed by the properties the design
    document states about them. *)

From Stdlib Require Import ZArith Lia Ascii DecimalString.
From Stdlib Require Import Floats.SpecFloat.
From stdpp Require Import base option list strings gmap.

Set Warnings "-register-all".
Local Open Scope Z_scope.
Local Open Scope string_scope.
Local Open Scope list_scope.

(** ** Go values stored in a [map[string]interface{}] *)

(** The integer types of Go; a value of type [interface{}] remembers which
    one it was built with, and a type switch tells them apart. *)
Inductive int_kind : Set :=
| KInt | KInt8 | KInt16 | KInt32 | KInt64
| KUint | KUint8 | KUint16 | KUint32 | KUint64.

(** The dynamic values an object tree is made of.  A JSON decoder produces
    [nil], [bool], [string], [int64], [float64], lists and maps; Go code
    (the package's own tests) also stores [int] and [int32]. *)
Inductive value : Type :=
| VNil
| VBool (b : bool)
| VString (s : string)
| VInteger (k : int_kind) (z : Z)
| VFloat64 (f : spec_float)
| VList (l : list value)
| VMap (m : gmap string value).

(** [map[string]interface{}] *)
Abbreviation object := (gmap string value).

(** ** Platform integers

    [int] is taken to be 64 bits wide (the platforms the tool is built
    for); a conversion [int(x)] and the arithmetic on [int] wrap. *)
Module GoInt.

Definition bits : Z := 64.

Definition wrap (z : Z) : Z :=
  (z + 2 ^ (bits - 1)) mod 2 ^ bits - 2 ^ (bits - 1).

Definition in_range (z : Z) : Prop :=
  - 2 ^ (bits - 1) <= z < 2 ^ (bits - 1).

Definition sub (a b : Z) : Z := wrap (a - b).

(** [fmt.Sprintf("%d", z)] *)
Definition fmt_d (z : Z) : string := NilZero.string_of_int (Z.to_int z).

End GoInt.

(** ** Errors

    An [error] value.  The text built by [fmt.Errorf] is kept as its
    arguments: the JSON path of the accessor and, for a list element, its
    index.  [Aggregate] is the value [errors.NewAggregate] builds. *)
Inductive error : Type :=
| AccessorError (path : string) (index : option nat)
| ClientError (msg : string)
| Aggregate (errs : list error).

(** [err != nil] *)
Definition notNil (err : option error) : bool :=
  match err with
  | Some _ => true
  | None => false
  end.

(** ** k8s.io/apimachinery helpers the package calls *)
Module api_unstructured.

(** [strings.Join(fields, ".")] *)
Fixpoint Join (fields : list string) : string :=
  match fields with
  | [] => ""
  | [f] => f
  | f :: fs => f +:+ "." +:+ Join fs
  end.

Definition jsonPath (fields : list string) : string := "." +:+ Join fields.

(** [NestedFieldNoCopy(obj, fields...)]: walks the maps along [fields];
    the result is [(val, found, err)].  [seen] is the prefix of the path
    already walked, used for the error's path only. *)
Fixpoint walk (seen : list string) (val : value) (fields : list string)
  : value * bool * option error :=
  match fields with
  | [] => (val, true, None)
  | field :: rest =>
      match val with
      | VNil => (VNil, false, None)
      | VMap m =>
          match m !! field with
          | Some v => walk (seen ++ [field]) v rest
          | None => (VNil, false, None)
          end
      | _ => (VNil, false,
              Some (AccessorError (jsonPath (seen ++ [field])) None))
      end
  end.

Definition NestedFieldNoCopy (obj : object) (fields : list string)
  : value * bool * option error :=
  walk [] (VMap obj) fields.

(** [NestedString]: the string at the path, [found = false] when absent;
    an error when the value is not a string. *)
Definition NestedString (obj : object) (fields : list string)
  : string * bool * option error :=
  match NestedFieldNoCopy obj fields with
  | (val, found, err) =>
      if negb found || notNil err then ("", found, err)
      else match val with
           | VString s => (s, true, None)
           | _ => ("", false, Some (AccessorError (jsonPath fields) None))
           end
  end.

End api_unstructured.

(** ** Package [internal/pkg/client/unstructured] *)
Module clientu.

Import api_unstructured.

(** [strings.Split(s, ".")]: never empty, [Split "" = [""]]. *)
Fixpoint Split (s : string) : list string :=
  match s with
  | EmptyString => [""]
  | String c s' =>
      if Ascii.eqb c "."%char then "" :: Split s'
      else match Split s' with
           | h :: t => String c h :: t
           | [] => [String c ""]
           end
  end.

(** The shared prologue of the two field getters: split the path and
    drop an empty first segment. *)
Definition fieldsOf (fieldPath : string) : list string :=
  match Split fieldPath with
  | "" :: rest => rest
  | fields => fields
  end.

(** The loop of [NestedMapSlice] over the list found at the path. *)
Fixpoint mapSliceLoop (fields : list string) (i : nat) (array : list value)
         (conditions : list object)
  : option (list object) * bool * option error :=
  match array with
  | [] => (Some conditions, true, None)
  | VMap entry :: array' => mapSliceLoop fields (S i) array' (conditions ++ [entry])
  | _ :: _ => (None, true, Some (AccessorError (jsonPath fields) (Some i)))
  end.

Definition NestedMapSlice (obj : object) (fields : list string)
  : option (list object) * bool * option error :=
  match NestedFieldNoCopy obj fields with
  | (val, found, err) =>
      if negb found || notNil err then (None, found, err)
      else
        match val with
        | VList array => mapSliceLoop fields 0 array []
        | _ => (None, true, Some (AccessorError (jsonPath fields) None))
        end
  end.

Definition GetStringField (obj : object) (fieldPath : string)
           (defaultValue : string) : string :=
  let rv := defaultValue in
  let fields := fieldsOf fieldPath in
  match NestedFieldNoCopy obj fields with
  | (val, found, err) =>
      if negb found || notNil err then rv
      else match val with
           | VString s => s
           | _ => rv
           end
  end.

Definition GetIntField (obj : object) (fieldPath : string)
           (defaultValue : Z) : Z :=
  let rv := defaultValue in
  let fields := fieldsOf fieldPath in
  match NestedFieldNoCopy obj fields with
  | (val, found, err) =>
      if negb found || notNil err then rv
      else match val with
           | VInteger KInt z => z
           | VInteger KInt32 z => GoInt.wrap z
           | VInteger KInt64 z => GoInt.wrap z
           | _ => rv
           end
  end.

Definition GetConditions (obj : object) : list object :=
  match NestedMapSlice obj ["status"; "conditions"] with
  | (conditions, ok, err) =>
      if notNil err then []
      else if negb ok then []
      else default [] conditions
  end.

End clientu.

(** ** [unstructured.Unstructured] and the methods the package calls *)

Record Unstructured : Type := { Object : object }.

(** [u.UnstructuredContent()]; a nil map and an empty one are the same
    value here. *)
Definition UnstructuredContent (u : Unstructured) : object := Object u.

Module schema.

Record GroupVersionKind : Type :=
  { Group : string; Version : string; Kind : string }.

(** Splits [gv] at its first ['/']: [None] when there is none. *)
Fixpoint cut (gv : string) : option (string * string) :=
  match gv with
  | EmptyString => None
  | String c rest =>
      if Ascii.eqb c "/"%char then Some ("", rest)
      else match cut rest with
           | Some (g, v) => Some (String c g, v)
           | None => None
           end
  end.

(** [schema.ParseGroupVersion]: no slash is a version of the core group,
    one slash separates group and version, more is an error ([None]). *)
Definition ParseGroupVersion (gv : string) : option (string * string) :=
  if (gv =? "")%string || (gv =? "/")%string then Some ("", "")
  else match cut gv with
       | None => Some ("", gv)
       | Some (g, v) =>
           match cut v with
           | None => Some (g, v)
           | Some _ => None
           end
       end.

End schema.

(** [getNestedString]: the string at the path, [""] otherwise. *)
Definition getNestedString (obj : object) (fields : list string) : string :=
  match api_unstructured.NestedString obj fields with
  | (val, found, err) => if negb found || notNil err then "" else val
  end.

Definition GetAPIVersion (u : Unstructured) : string :=
  getNestedString (Object u) ["apiVersion"].

Definition GetKind (u : Unstructured) : string :=
  getNestedString (Object u) ["kind"].

Definition GetNamespace (u : Unstructured) : string :=
  getNestedString (Object u) ["metadata"; "namespace"].

Definition GetName (u : Unstructured) : string :=
  getNestedString (Object u) ["metadata"; "name"].

Definition GroupVersionKind (u : Unstructured) : schema.GroupVersionKind :=
  match schema.ParseGroupVersion (GetAPIVersion u) with
  | None => schema.Build_GroupVersionKind "" "" ""
  | Some (g, v) => schema.Build_GroupVersionKind g v (GetKind u)
  end.

(** ** Package [internal/pkg/status]: the condition model *)

(** [type ConditionType string] *)
Definition ConditionType : Type := string.

Definition ConditionReady : ConditionType := "Ready".
Definition ConditionSettled : ConditionType := "Settled".
Definition ConditionFailed : ConditionType := "Failed".
Definition ConditionCompleted : ConditionType := "Completed".

Record Condition : Type :=
  { Type_ : ConditionType; Status : string; Reason : string }.

Definition NewFalseCondition (ctype : ConditionType) : Condition :=
  {| Type_ := ctype; Status := "False"; Reason := "" |}.

Definition NewCondition (ctype : ConditionType) (reason : string) : Condition :=
  {| Type_ := ctype; Status := "True"; Reason := reason |}.

Definition Get (c : Condition) : Condition := c.

Definition False_ (c : Condition) : Condition :=
  {| Type_ := Type_ c; Status := "False"; Reason := Reason c |}.

(** The assignments [c.Status = s] and [c.Reason = r]. *)
Definition setStatus (s : string) (c : Condition) : Condition :=
  {| Type_ := Type_ c; Status := s; Reason := Reason c |}.

Definition setReason (r : string) (c : Condition) : Condition :=
  {| Type_ := Type_ c; Status := Status c; Reason := r |}.

Fixpoint GetCondition (cs : list Condition) (ct : ConditionType)
  : option Condition :=
  match cs with
  | [] => None
  | c :: cs' => if (Type_ c =? ct)%string then Some c else GetCondition cs' ct
  end.

(** [GetConditionsFn]: from a pointer to an [Unstructured] to a list of
    conditions and an error. *)
Definition GetConditionsFn : Type :=
  Unstructured -> list Condition * option error.

Definition generationMismatch : string :=
  "Controller has not observed the latest change. Status generation does not match with metadata".

(** ** The per-kind evaluators *)

Import clientu.

Definition alwaysReady (u : Unstructured) : list Condition * option error :=
  ([ {| Type_ := ConditionReady; Status := "True"; Reason := "always" |} ], None).

(** StatefulSet *)
Definition stsConditions (u : Unstructured) : list Condition * option error :=
  let obj := UnstructuredContent u in
  let readyCondition := NewFalseCondition ConditionReady in
  let updateStrategy := GetStringField obj ".spec.updateStrategy.type" "" in
  if (updateStrategy =? "ondelete")%string then
    let readyCondition := setStatus "True" readyCondition in
    let readyCondition := setReason "ondelete strategy" readyCondition in
    ([readyCondition], None)
  else
  let observedGeneration := GetIntField obj ".status.observedGeneration" (-1) in
  let metaGeneration := GetIntField obj ".metadata.generation" (-1) in
  if negb (observedGeneration =? metaGeneration)%Z then
    ([setReason generationMismatch readyCondition], None)
  else
  let specReplicas := GetIntField obj ".spec.replicas" 1 in
  let readyReplicas := GetIntField obj ".status.readyReplicas" 0 in
  let currentReplicas := GetIntField obj ".status.currentReplicas" 0 in
  let updatedReplicas := GetIntField obj ".status.updatedReplicas" 0 in
  let statusReplicas := GetIntField obj ".status.replicas" 0 in
  let partition := GetIntField obj ".spec.updateStrategy.rollingUpdate.partition" (-1) in
  if (specReplicas >? statusReplicas)%Z then
    ([setReason ("Waiting for requested replicas. Replicas: "
                 +:+ GoInt.fmt_d statusReplicas +:+ "/" +:+ GoInt.fmt_d specReplicas)
                readyCondition], None)
  else if (specReplicas >? readyReplicas)%Z then
    ([setReason ("Waiting for replicas to become Ready. Ready: "
                 +:+ GoInt.fmt_d readyReplicas +:+ "/" +:+ GoInt.fmt_d specReplicas)
                readyCondition], None)
  else if negb (partition =? -1)%Z then
    if (updatedReplicas <? GoInt.sub specReplicas partition)%Z then
      ([setReason ("Waiting for partition rollout to complete. updated: "
                   +:+ GoInt.fmt_d updatedReplicas +:+ "/"
                   +:+ GoInt.fmt_d (GoInt.sub specReplicas partition))
                  readyCondition], None)
    else
      ([setReason ("Partition rollout complete. updated: "
                   +:+ GoInt.fmt_d updatedReplicas)
                  (setStatus "True" readyCondition)], None)
  else if (specReplicas >? currentReplicas)%Z then
    ([setReason ("Waiting for replicas to become current. current: "
                 +:+ GoInt.fmt_d currentReplicas +:+ "/" +:+ GoInt.fmt_d specReplicas)
                readyCondition], None)
  else
  let currentRevision := GetStringField obj ".status.currentRevision" "" in
  let updatedRevision := GetStringField obj ".status.updatedRevision" "" in
  if negb (currentRevision =? updatedRevision)%string then
    ([setReason "Waiting for updated revision to match currentd" readyCondition], None)
  else
    ([setReason ("All replicas scheduled as expected. Replicas: "
                 +:+ GoInt.fmt_d statusReplicas)
                (setStatus "True" readyCondition)], None).

(** The scan of a Deployment's conditions: [inl c] is the early return
    with the ready condition [c], [inr (progress, available)] the two
    flags after the whole list. *)
Fixpoint deploymentScan (readyCondition : Condition) (conditions : list object)
         (progress available : bool) : Condition + bool * bool :=
  match conditions with
  | [] => inr (progress, available)
  | c :: rest =>
      let status := GetStringField c ".status" "" in
      let reason := GetStringField c ".reason" "" in
      let type := GetStringField c ".type" "" in
      if (type =? "Progressing")%string then
        if (reason =? "ProgressDeadlineExceeded")%string then
          inl (setReason "Progress Deadline exceeded" readyCondition)
        else if (status =? "True")%string && (reason =? "NewReplicaSetAvailable")%string then
          deploymentScan readyCondition rest true available
        else deploymentScan readyCondition rest progress available
      else if (type =? "Available")%string then
        if (status =? "True")%string then
          deploymentScan readyCondition rest progress true
        else deploymentScan readyCondition rest progress available
      else deploymentScan readyCondition rest progress available
  end.

(** Deployment *)
Definition deploymentConditions (u : Unstructured) : list Condition * option error :=
  let obj := UnstructuredContent u in
  let readyCondition := NewFalseCondition ConditionReady in
  let observedGeneration := GetIntField obj ".status.observedGeneration" (-1) in
  let metaGeneration := GetIntField obj ".metadata.generation" (-1) in
  if negb (observedGeneration =? metaGeneration)%Z then
    ([setReason generationMismatch readyCondition], None)
  else
  let conditions := GetConditions obj in
  match deploymentScan readyCondition conditions false false with
  | inl readyCondition => ([readyCondition], None)
  | inr (progress, available) =>
  let specReplicas := GetIntField obj ".spec.replicas" 1 in
  let statusReplicas := GetIntField obj ".status.replicas" 0 in
  let updatedReplicas := GetIntField obj ".status.updatedReplicas" 0 in
  let readyReplicas := GetIntField obj ".status.readyReplicas" 0 in
  let availableReplicas := GetIntField obj ".status.availableReplicas" 0 in
  if (specReplicas >? updatedReplicas)%Z then
    ([setReason ("Waiting for all replicas to be updated. Updated: "
                 +:+ GoInt.fmt_d updatedReplicas +:+ "/" +:+ GoInt.fmt_d specReplicas)
                readyCondition], None)
  else if (statusReplicas >? updatedReplicas)%Z then
    ([setReason ("Waiting for old replicas to finish termination. Pending termination: "
                 +:+ GoInt.fmt_d (GoInt.sub statusReplicas updatedReplicas))
                readyCondition], None)
  else if (updatedReplicas >? availableReplicas)%Z then
    ([setReason ("Waiting for all replicas to be available. Available: "
                 +:+ GoInt.fmt_d availableReplicas +:+ "/" +:+ GoInt.fmt_d updatedReplicas)
                readyCondition], None)
  else if (specReplicas >? readyReplicas)%Z then
    ([setReason ("Waiting for all replicas to be ready. Ready: "
                 +:+ GoInt.fmt_d readyReplicas +:+ "/" +:+ GoInt.fmt_d specReplicas)
                readyCondition], None)
  else if (specReplicas >? statusReplicas)%Z then
    ([setReason ("Waiting for all .status.replicas to be catchup. replicas: "
                 +:+ GoInt.fmt_d statusReplicas +:+ "/" +:+ GoInt.fmt_d specReplicas)
                readyCondition], None)
  else if negb progress then
    ([setReason "New ReplicaSet is not available" readyCondition], None)
  else if negb available then
    ([setReason "Deployment is not Available" readyCondition], None)
  else
    ([setReason ("Deployment is available. Replicas: " +:+ GoInt.fmt_d statusReplicas)
                (setStatus "True" readyCondition)], None)
  end.

(** The scan of a ReplicaSet's conditions: [true] when an entry of type
    ReplicaFailure with status True makes the evaluator return. *)
Fixpoint replicasetScan (conditions : list object) : bool :=
  match conditions with
  | [] => false
  | c :: rest =>
      if (GetStringField c ".type" "" =? "ReplicaFailure")%string then
        let status := GetStringField c ".status" "" in
        if (status =? "True")%string then true else replicasetScan rest
      else replicasetScan rest
  end.

(** ReplicaSet *)
Definition replicasetConditions (u : Unstructured) : list Condition * option error :=
  let obj := UnstructuredContent u in
  let readyCondition := NewFalseCondition ConditionReady in
  let observedGeneration := GetIntField obj ".status.observedGeneration" (-1) in
  let metaGeneration := GetIntField obj ".metadata.generation" (-1) in
  if negb (observedGeneration =? metaGeneration)%Z then
    ([setReason generationMismatch readyCondition], None)
  else
  let conditions := GetConditions (UnstructuredContent u) in
  if replicasetScan conditions then
    ([setReason "Replica Failure condition. Check Pods" readyCondition], None)
  else
  let specReplicas := GetIntField obj ".spec.replicas" 1 in
  let statusReplicas := GetIntField obj ".status.replicas" 0 in
  let readyReplicas := GetIntField obj ".status.readyReplicas" 0 in
  let availableReplicas := GetIntField obj ".status.availableReplicas" 0 in
  let labelledReplicas := GetIntField obj ".status.labelledReplicas" 0 in
  if (specReplicas =? 0)%Z && (labelledReplicas =? 0)%Z
     && (availableReplicas =? 0)%Z && (readyReplicas =? 0)%Z then
    ([setReason "Replica is 0" readyCondition], None)
  else if (specReplicas >? labelledReplicas)%Z then
    ([setReason ("Waiting for all replicas to be fully-labeled. Labelled: "
                 +:+ GoInt.fmt_d labelledReplicas +:+ "/" +:+ GoInt.fmt_d specReplicas)
                readyCondition], None)
  else if (specReplicas >? availableReplicas)%Z then
    ([setReason ("Waiting for all replicas to be available. Available: "
                 +:+ GoInt.fmt_d availableReplicas +:+ "/" +:+ GoInt.fmt_d specReplicas)
                readyCondition], None)
  else if (specReplicas >? readyReplicas)%Z then
    ([setReason ("Waiting for all replicas to be ready. Ready: "
                 +:+ GoInt.fmt_d readyReplicas +:+ "/" +:+ GoInt.fmt_d specReplicas)
                readyCondition], None)
  else
    ([setReason ("ReplicaSet is available. Replicas: " +:+ GoInt.fmt_d statusReplicas)
                (setStatus "True" readyCondition)], None).

(** DaemonSet *)
Definition daemonsetConditions (u : Unstructured) : list Condition * option error :=
  let obj := UnstructuredContent u in
  let readyCondition := NewFalseCondition ConditionReady in
  let observedGeneration := GetIntField obj ".status.observedGeneration" (-1) in
  let metaGeneration := GetIntField obj ".metadata.generation" (-1) in
  if negb (observedGeneration =? metaGeneration)%Z then
    ([setReason generationMismatch readyCondition], None)
  else
  let desiredNumberScheduled := GetIntField obj ".status.desiredNumberScheduled" (-1) in
  let currentNumberScheduled := GetIntField obj ".status.currentNumberScheduled" 0 in
  let updatedNumberScheduled := GetIntField obj ".status.updatedNumberScheduled" 0 in
  let numberAvailable := GetIntField obj ".status.numberAvailable" 0 in
  let numberReady := GetIntField obj ".status.numberReady" 0 in
  if (desiredNumberScheduled =? -1)%Z then
    ([setReason "Missing .status.desiredNumberScheduled" readyCondition], None)
  else if (desiredNumberScheduled >? currentNumberScheduled)%Z then
    ([setReason ("Waiting for desired replicas to be scheduled. Current: "
                 +:+ GoInt.fmt_d currentNumberScheduled +:+ "/"
                 +:+ GoInt.fmt_d desiredNumberScheduled)
                readyCondition], None)
  else if (desiredNumberScheduled >? updatedNumberScheduled)%Z then
    ([setReason ("Waiting for updated replicas to be scheduled. Updated: "
                 +:+ GoInt.fmt_d updatedNumberScheduled +:+ "/"
                 +:+ GoInt.fmt_d desiredNumberScheduled)
                readyCondition], None)
  else if (desiredNumberScheduled >? numberAvailable)%Z then
    ([setReason ("Waiting for replicas to be available. Available: "
                 +:+ GoInt.fmt_d numberAvailable +:+ "/"
                 +:+ GoInt.fmt_d desiredNumberScheduled)
                readyCondition], None)
  else if (desiredNumberScheduled >? numberReady)%Z then
    ([setReason ("Waiting for replicas to be ready. Ready: "
                 +:+ GoInt.fmt_d numberReady +:+ "/"
                 +:+ GoInt.fmt_d desiredNumberScheduled)
                readyCondition], None)
  else
    ([setReason ("All replicas scheduled as expected. Replicas: "
                 +:+ GoInt.fmt_d desiredNumberScheduled)
                (setStatus "True" readyCondition)], None).

(** PersistentVolumeClaim *)
Definition pvcConditions (u : Unstructured) : list Condition * option error :=
  let obj := UnstructuredContent u in
  let readyCondition := NewFalseCondition ConditionReady in
  let phase := GetStringField obj ".status.phase" "unknown" in
  if negb (phase =? "Bound")%string then
    ([setReason ("PVC is not Bound. phase: " +:+ phase) readyCondition], None)
  else
    ([setReason "PVC is Bound" (setStatus "True" readyCondition)], None).

(** The loop of [podConditions]: the state is the list [rv] and the
    ready condition, both updated at every entry of type Ready. *)
Fixpoint podScan (phase : string) (conditions : list object)
         (rv : list Condition) (readyCondition : Condition)
  : list Condition * Condition :=
  match conditions with
  | [] => (rv, readyCondition)
  | c :: rest =>
      if (GetStringField c ".type" "" =? "Ready")%string then
        let readyCondition := setReason (GetStringField c "reason" "") readyCondition in
        if (GetStringField c "status" "" =? "True")%string then
          podScan phase rest rv (setStatus "True" readyCondition)
        else
          let readyCondition := setStatus "False" readyCondition in
          if (GetStringField c "reason" "" =? "PodCompleted")%string then
            let readyCondition := setStatus "True" readyCondition in
            if (phase =? "Succeeded")%string then
              podScan phase rest
                      (rv ++ [Get (NewCondition ConditionCompleted "Pod Succeeded")])
                      readyCondition
            else
              podScan phase rest
                      (rv ++ [Get (NewCondition ConditionFailed ("Pod phase: " +:+ phase))])
                      readyCondition
          else podScan phase rest rv readyCondition
      else podScan phase rest rv readyCondition
  end.

(** Pod *)
Definition podConditions (u : Unstructured) : list Condition * option error :=
  let rv := [] in
  let readyCondition := NewFalseCondition ConditionReady in
  let obj := UnstructuredContent u in
  let phase := GetStringField obj ".status.phase" "unknown" in
  let conditions := GetConditions obj in
  match podScan phase conditions rv readyCondition with
  | (rv, readyCondition) =>
      let readyCondition :=
        if (Reason readyCondition =? "")%string then
          setReason ("Phase: " +:+ phase) readyCondition
        else
          setReason ("Phase: " +:+ phase +:+ ", " +:+ Reason readyCondition)
                    readyCondition in
      (rv ++ [readyCondition], None)
  end.

(** PodDisruptionBudget *)
Definition pdbConditions (u : Unstructured) : list Condition * option error :=
  let obj := UnstructuredContent u in
  let readyCondition := NewFalseCondition ConditionReady in
  let currentHealthy := GetIntField obj ".status.currentHealthy" 0 in
  let desiredHealthy := GetIntField obj ".status.desiredHealthy" (-1) in
  if (desiredHealthy =? -1)%Z then
    ([setReason "Missing .status.desiredHealthy" readyCondition], None)
  else if (desiredHealthy >? currentHealthy)%Z then
    ([setReason ("Budget not met. healthy replicas: "
                 +:+ GoInt.fmt_d currentHealthy +:+ "/" +:+ GoInt.fmt_d desiredHealthy)
                readyCondition], None)
  else
    ([setReason ("Budget is met. Replicas: "
                 +:+ GoInt.fmt_d currentHealthy +:+ "/" +:+ GoInt.fmt_d desiredHealthy)
                (setStatus "True" readyCondition)], None).

(** The loop of [jobConditions]: [Some cs] is the return from inside the
    loop, at the first entry that is Complete or Failed with status True. *)
Fixpoint jobScan (succeeded failed completions : Z) (conditions : list object)
  : option (list Condition) :=
  match conditions with
  | [] => None
  | c :: rest =>
      let status := GetStringField c ".status" "" in
      let type := GetStringField c ".type" "" in
      if (type =? "Complete")%string then
        if (status =? "True")%string then
          let message := "Job Completed. succeded: " +:+ GoInt.fmt_d succeeded
                         +:+ "/" +:+ GoInt.fmt_d completions in
          Some [Get (NewCondition ConditionReady message);
                Get (NewCondition ConditionCompleted message)]
        else jobScan succeeded failed completions rest
      else if (type =? "Failed")%string then
        if (status =? "True")%string then
          let message := "Job Failed. failed: " +:+ GoInt.fmt_d failed
                         +:+ "/" +:+ GoInt.fmt_d completions in
          Some [Get (NewCondition ConditionReady message);
                Get (NewCondition ConditionFailed message)]
        else jobScan succeeded failed completions rest
      else jobScan succeeded failed completions rest
  end.

(** Job *)
Definition jobConditions (u : Unstructured) : list Condition * option error :=
  let obj := UnstructuredContent u in
  let parallelism := GetIntField obj ".spec.parallelism" 1 in
  let completions := GetIntField obj ".spec.completions" parallelism in
  let succeeded := GetIntField obj ".status.succeeded" 0 in
  let active := GetIntField obj ".status.active" 0 in
  let failed := GetIntField obj ".status.failed" 0 in
  let conditions := GetConditions obj in
  let starttime := GetStringField obj ".status.startTime" "" in
  match jobScan succeeded failed completions conditions with
  | Some cs => (cs, None)
  | None =>
      if (starttime =? "")%string then
        let message := "Job not started" in
        ([Get (False_ (NewCondition ConditionReady message))], None)
      else
        let message := "Job in progress. success:" +:+ GoInt.fmt_d succeeded
                       +:+ ", active: " +:+ GoInt.fmt_d active
                       +:+ ", failed: " +:+ GoInt.fmt_d failed in
        ([Get (NewCondition ConditionReady message)], None)
  end.

(** Service *)
Definition serviceConditions (u : Unstructured) : list Condition * option error :=
  let obj := UnstructuredContent u in
  let specType := GetStringField obj ".spec.type" "ClusterIP" in
  let specClusterIP := GetStringField obj ".spec.clusterIP" "" in
  let message := "Always Ready. Service type: " +:+ specType in
  if (specType =? "LoadBalancer")%string then
    if (specClusterIP =? "")%string then
      let message := "ClusterIP not set. Service type: LoadBalancer" in
      ([Get (False_ (NewCondition ConditionReady message))], None)
    else
      let message := "ClusterIP: " +:+ specClusterIP in
      ([Get (NewCondition ConditionReady message)], None)
  else
    ([Get (NewCondition ConditionReady message)], None).

(** ** The generic evaluator *)

(** The loop of [readyConditionReader]: one condition is appended for
    every entry of type Ready; [ready] records that there was one. *)
Fixpoint readyScan (conditions : list object) (rv : list Condition)
         (ready : bool) : list Condition * bool :=
  match conditions with
  | [] => (rv, ready)
  | c :: rest =>
      if (GetStringField c "type" "" =? "Ready")%string then
        let ready := true in
        let reason := GetStringField c "reason" "" in
        if (GetStringField c "status" "" =? "False")%string then
          readyScan rest (rv ++ [Get (False_ (NewCondition ConditionReady reason))]) ready
        else
          readyScan rest (rv ++ [Get (NewCondition ConditionReady reason)]) ready
      else readyScan rest rv ready
  end.

Definition readyConditionReader (u : Unstructured) : list Condition * option error :=
  let rv := [] in
  let ready := false in
  let obj := UnstructuredContent u in
  let metaGeneration := GetIntField obj ".metadata.generation" (-1) in
  let observedGeneration := GetIntField obj ".status.observedGeneration" metaGeneration in
  if negb (observedGeneration =? metaGeneration)%Z then
    let reason := generationMismatch in
    (rv ++ [Get (False_ (NewCondition ConditionReady reason))], None)
  else
  let conditions := GetConditions obj in
  match readyScan conditions rv ready with
  | (rv, ready) =>
      if negb ready then
        (rv ++ [Get (NewCondition ConditionReady "No Ready condition found")], None)
      else (rv, None)
  end.

Definition GetGenericReadyFn (u : Unstructured) : option GetConditionsFn :=
  Some readyConditionReader.

(** ** Registry and dispatch *)

Definition legacyTypes : gmap string (gmap string GetConditionsFn) :=
  list_to_map
    [ ("", list_to_map [ ("Service", serviceConditions);
                         ("Pod", podConditions);
                         ("PersistentVolumeClaim", pvcConditions) ]);
      ("apps", list_to_map [ ("StatefulSet", stsConditions);
                             ("DaemonSet", daemonsetConditions);
                             ("Deployment", deploymentConditions);
                             ("ReplicaSet", replicasetConditions) ]);
      ("policy", list_to_map [ ("PodDisruptionBudget", pdbConditions) ]);
      ("batch", list_to_map [ ("CronJob", alwaysReady);
                              ("Job", jobConditions) ]) ].

Definition GetLegacyReadyFn (u : Unstructured) : option GetConditionsFn :=
  let gvk := GroupVersionKind u in
  let g := schema.Group gvk in
  let k := schema.Kind gvk in
  match legacyTypes !! g with
  | Some kinds =>
      match kinds !! k with
      | Some fn => Some fn
      | None => None
      end
  | None => None
  end.

Definition IsReady (u : Unstructured) : list Condition * option error :=
  let fn := GetLegacyReadyFn u in
  let fn := match fn with
            | None => GetGenericReadyFn u
            | Some _ => fn
            end in
  match fn with
  | Some fn => fn u
  | None => ([], None)
  end.

(** ** The batch loop [Status.Do]

    [a.Resources] is a list of pointers to [Unstructured] objects, and
    [DynamicClient.Get] overwrites the object it is handed.  A pointer is a
    number, the heap maps every pointer to the object it points to, and the
    client is an interface with a state of its own. *)

Definition ptr : Type := nat.

Definition heap : Type := ptr -> Unstructured.

Definition heapStore (h : heap) (p : ptr) (u : Unstructured) : heap :=
  fun q => if Nat.eqb q p then u else h q.

Record NamespacedName : Type := { Namespace : string; Name : string }.

(** [client.Client], reduced to the method [Do] calls: from the state of
    the client, the key and the object behind the pointer to the new
    state, the object as [Get] leaves it, and the error. *)
Class Client (C : Type) : Type :=
  { ClientGet : C -> NamespacedName -> Unstructured -> C * Unstructured * option error }.

Record ResourceStatus : Type :=
  { Resource : ptr; Conditions : list Condition; Error : option error }.

Module Result.
Record t : Type := { Resources : list ResourceStatus }.
End Result.

(** [type Status struct]; the commit is not used by [Do], and [Out] is the
    text written so far. *)
Record StatusCmd (C : Type) : Type :=
  { DynamicClient : C; Out : list string; Resources : list ptr }.

Arguments DynamicClient {C} _.
Arguments Out {C} _.
Arguments Resources {C} _.

(** [errors.NewAggregate]: nil for an empty list. *)
Definition NewAggregate (errlist : list error) : option error :=
  match errlist with
  | [] => None
  | _ :: _ => Some (Aggregate errlist)
  end.

(** The [for] loop of [Do], with its two accumulators. *)
Fixpoint doLoop {C : Type} `{Client C} (us : list ptr) (c : C) (h : heap)
         (rs : list ResourceStatus) (errs : list error)
  : C * heap * list ResourceStatus * list error :=
  match us with
  | [] => (c, h, rs, errs)
  | u :: rest =>
      let key := {| Namespace := GetNamespace (h u); Name := GetName (h u) |} in
      match ClientGet c key (h u) with
      | (c, fetched, err) =>
          let h := heapStore h u fetched in
          match err with
          | Some err =>
              doLoop rest c h
                     (rs ++ [{| Resource := u; Conditions := []; Error := Some err |}])
                     (errs ++ [err])
          | None =>
              match IsReady (h u) with
              | (conditions, Some err) =>
                  doLoop rest c h
                         (rs ++ [{| Resource := u; Conditions := []; Error := Some err |}])
                         (errs ++ [err])
              | (conditions, None) =>
                  doLoop rest c h
                         (rs ++ [{| Resource := u; Conditions := conditions; Error := None |}])
                         errs
              end
          end
      end
  end.

Definition banner : string :=
  "Doing `cli-experimental apply status`" +:+ String (ascii_of_nat 10) "".

(** [Do]: the result and the error, and the state it leaves behind. *)
Definition Do {C : Type} `{Client C} (a : StatusCmd C) (h : heap)
  : (Result.t * option error) * (StatusCmd C * heap) :=
  let errs := [] in
  let rs := [] in
  let out := Out a ++ [banner] in
  match doLoop (Resources a) (DynamicClient a) h rs errs with
  | (c, h, rs, errs) =>
      let a := {| DynamicClient := c; Out := out; Resources := Resources a |} in
      if negb (length errs =? 0)%nat then
        ((Result.Build_t rs, NewAggregate errs), (a, h))
      else ((Result.Build_t rs, None), (a, h))
  end.

(** * Specification-side definitions and example inputs *)

(** ** The accessors *)

(** The value at a path, as the design document describes it: present when
    every segment but the last names a map that has the next segment. *)
Fixpoint lookupPath (v : value) (fields : list string) : option value :=
  match fields with
  | [] => Some v
  | f :: fs =>
      match v with
      | VMap m =>
          match m !! f with
          | Some v' => lookupPath v' fs
          | None => None
          end
      | _ => None
      end
  end.

(** The string and the integer a tree holds at a path, if any. *)
Definition stringAt (obj : object) (fields : list string) : option string :=
  match lookupPath (VMap obj) fields with
  | Some (VString s) => Some s
  | _ => None
  end.

Definition intAt (obj : object) (fields : list string) : option Z :=
  match lookupPath (VMap obj) fields with
  | Some (VInteger KInt z) => Some z
  | Some (VInteger KInt32 z) => Some (GoInt.wrap z)
  | Some (VInteger KInt64 z) => Some (GoInt.wrap z)
  | _ => None
  end.

(** The string under key [k] of a condition entry, [""] when there is none. *)
Definition strField (c : object) (k : string) : string :=
  match c !! k with
  | Some (VString s) => s
  | _ => ""
  end.

Definition conditionsPath : list string := ["status"; "conditions"].

(** [status.conditions] is the list of maps [cs]. *)
Definition hasConditions (obj : object) (cs : list object) : Prop :=
  lookupPath (VMap obj) conditionsPath = Some (VList (VMap <$> cs)).

(** The map [c] is an element of the list under [status.conditions],
    whatever the other elements are. *)
Definition conditionEntry (obj : object) (c : object) : Prop :=
  exists l, lookupPath (VMap obj) conditionsPath = Some (VList l) /\ VMap c ∈ l.

(** The object of the package's accessor tests. *)
Definition testObj : object :=
  list_to_map
    [ ("f1", VMap (list_to_map
        [ ("f2", VMap (list_to_map
            [ ("i32", VInteger KInt32 32);
              ("i64", VInteger KInt64 64);
              ("float", VFloat64 (S754_finite false 4505007002254049 (-46)));
              ("ms", VList [ VMap {[ "f1f2ms0f1" := VInteger KInt 22 ]};
                             VMap {[ "f1f2ms1f1" := VString "index1" ]} ]);
              ("msbad", VList [ VMap {[ "f1f2ms0f1" := VInteger KInt 22 ]};
                                VInteger KInt 32 ]) ])) ]));
      ("ride", VString "dragon");
      ("status", VMap (list_to_map
        [ ("conditions", VList [ VMap {[ "f1f2ms0f1" := VInteger KInt 22 ]};
                                 VMap {[ "f1f2ms1f1" := VString "index1" ]} ]) ])) ].

(** C8, as the design document words it, at one tree, path and default:
    an integer of any width found at the path is returned (coerced to a
    platform integer), anything else gives the default. *)
Definition int_of_any_width_returned (obj : object) (path : string) (d : Z) : Prop :=
  match lookupPath (VMap obj) (fieldsOf path) with
  | Some (VInteger _ z) => GetIntField obj path d = GoInt.wrap z
  | _ => GetIntField obj path d = d
  end.

(** A tree holding [int16(5)] under the key ["n"]. *)
Definition int16Obj : object := {[ "n" := VInteger KInt16 5 ]}.

(** ** The evaluators *)

(** Builds a map value from its entries. *)
Definition obj_of (l : list (string * value)) : value := VMap (list_to_map l).

(** A condition entry with the given type, status and reason. *)
Definition entry (type status reason : string) : object :=
  list_to_map [("type", VString type); ("status", VString status);
               ("reason", VString reason)].

(** The result every generation check returns on a mismatch. *)
Definition mismatchResult : list Condition * option error :=
  ([ {| Type_ := ConditionReady; Status := "False"; Reason := generationMismatch |} ],
   None).

(** C2 as worded, for one evaluator and one snapshot: whenever the two
    generations differ, every Ready condition returned has status False. *)
Definition readyFalseOnMismatch (fn : GetConditionsFn) (u : Unstructured) : Prop :=
  GetIntField (Object u) ".metadata.generation" (-1)
  <> GetIntField (Object u) ".status.observedGeneration" (-1) ->
  forall c, c ∈ (fn u).1 -> Type_ c = ConditionReady -> Status c = "False".

(** A StatefulSet the user manages by hand, whose controller is one
    generation behind and which has no ready replica. *)
Definition stsOnDeleteStale : Unstructured :=
  {| Object := list_to_map
       [ ("apiVersion", VString "apps/v1");
         ("kind", VString "StatefulSet");
         ("metadata", obj_of [("generation", VInteger KInt64 2)]);
         ("spec", obj_of [("replicas", VInteger KInt64 3);
                          ("updateStrategy", obj_of [("type", VString "ondelete")])]);
         ("status", obj_of [("observedGeneration", VInteger KInt64 1);
                            ("replicas", VInteger KInt64 0);
                            ("readyReplicas", VInteger KInt64 0)]) ] |}.

(** A Deployment whose controller is one generation behind. *)
Definition deploymentStale : Unstructured :=
  {| Object := list_to_map
       [ ("apiVersion", VString "apps/v1");
         ("kind", VString "Deployment");
         ("metadata", obj_of [("generation", VInteger KInt64 2)]);
         ("spec", obj_of [("replicas", VInteger KInt64 1)]);
         ("status", obj_of [("observedGeneration", VInteger KInt64 1);
                            ("replicas", VInteger KInt64 1);
                            ("updatedReplicas", VInteger KInt64 1);
                            ("readyReplicas", VInteger KInt64 1);
                            ("availableReplicas", VInteger KInt64 1);
                            ("conditions", VList
                               [ VMap (entry "Progressing" "True" "NewReplicaSetAvailable");
                                 VMap (entry "Available" "True" "MinimumReplicasAvailable") ])]) ] |}.

(** A custom resource with no [status] at all. *)
Definition customNoStatus : Unstructured :=
  {| Object := list_to_map
       [ ("apiVersion", VString "example.com/v1");
         ("kind", VString "Widget");
         ("metadata", obj_of [("name", VString "w"); ("generation", VInteger KInt64 4)]) ] |}.

(** Entries of [status.conditions] the scans react to. *)
Definition isReadyEntry (c : object) : bool :=
  (strField c "type" =? "Ready")%string.

(** The condition the generic evaluator emits for an entry of type Ready. *)
Definition mirrorReady (c : object) : Condition :=
  {| Type_ := ConditionReady;
     Status := if (strField c "status" =? "False")%string then "False" else "True";
     Reason := strField c "reason" |}.

(** The ready condition of a Pod after an entry of type Ready, before the
    phase is put in front of its reason. *)
Definition podReadyOf (c : object) : Condition :=
  {| Type_ := ConditionReady;
     Status := if (strField c "status" =? "True")%string then "True"
               else if (strField c "reason" =? "PodCompleted")%string then "True"
                    else "False";
     Reason := strField c "reason" |}.

(** An entry of type Ready that reports a completed Pod. *)
Definition isCompletedEntry (c : object) : bool :=
  isReadyEntry c && negb (strField c "status" =? "True")%string
  && (strField c "reason" =? "PodCompleted")%string.

(** The terminal condition of a completed Pod in the given phase. *)
Definition podTerminal (phase : string) : Condition :=
  if (phase =? "Succeeded")%string
  then {| Type_ := ConditionCompleted; Status := "True"; Reason := "Pod Succeeded" |}
  else {| Type_ := ConditionFailed; Status := "True";
          Reason := "Pod phase: " +:+ phase |}.

(** The ready condition the Pod scan ends with. *)
Definition podReadyAfter (cs : list object) (rc : Condition) : Condition :=
  fold_left (fun rc c => if isReadyEntry c then podReadyOf c else rc) cs rc.

(** An entry that makes the Job evaluator return from its loop. *)
Definition isJobComplete (c : object) : bool :=
  (strField c "type" =? "Complete")%string && (strField c "status" =? "True")%string.

Definition isJobFailed (c : object) : bool :=
  (strField c "type" =? "Failed")%string && (strField c "status" =? "True")%string.

(** An entry that makes the Deployment evaluator return from its loop. *)
Definition isDeadlineExceeded (c : object) : bool :=
  (strField c "type" =? "Progressing")%string
  && (strField c "reason" =? "ProgressDeadlineExceeded")%string.

(** The evaluators that return one Ready condition and nothing else. *)
Definition readyOnlyEvaluators : list GetConditionsFn :=
  [ alwaysReady; stsConditions; deploymentConditions; replicasetConditions;
    daemonsetConditions; pvcConditions; pdbConditions; serviceConditions ].

(** Every dedicated evaluator of the registry. *)
Definition dedicatedEvaluators : list GetConditionsFn :=
  readyOnlyEvaluators ++ [ podConditions; jobConditions ].

(** Every evaluator: the dedicated ones and the generic one. *)
Definition evaluators : list GetConditionsFn :=
  dedicatedEvaluators ++ [ readyConditionReader ].

(** A result that is exactly one Ready condition, True or False. *)
Definition singleReady (r : list Condition * option error) : Prop :=
  exists status reason,
    r = ([ {| Type_ := ConditionReady; Status := status; Reason := reason |} ], None)
    /\ (status = "True" \/ status = "False").

Definition statusOK (c : Condition) : Prop :=
  Status c = "True" \/ Status c = "False".

(** The condition types of a result, in order. *)
Definition typesOf (r : list Condition * option error) : list ConditionType :=
  Type_ <$> r.1.

(** A Deployment with every replica in place and both conditions healthy,
    plus one entry reporting that the progress deadline was exceeded. *)
Definition deploymentDeadline : Unstructured :=
  {| Object := list_to_map
       [ ("apiVersion", VString "apps/v1");
         ("kind", VString "Deployment");
         ("metadata", obj_of [("generation", VInteger KInt64 1)]);
         ("spec", obj_of [("replicas", VInteger KInt64 1)]);
         ("status", obj_of [("observedGeneration", VInteger KInt64 1);
                            ("replicas", VInteger KInt64 1);
                            ("updatedReplicas", VInteger KInt64 1);
                            ("readyReplicas", VInteger KInt64 1);
                            ("availableReplicas", VInteger KInt64 1);
                            ("conditions", VList
                               [ VMap (entry "Progressing" "True" "NewReplicaSetAvailable");
                                 VMap (entry "Available" "True" "MinimumReplicasAvailable");
                                 VMap (entry "Progressing" "False" "ProgressDeadlineExceeded") ])]) ] |}.

(** C1 as worded, for one evaluator and one snapshot. *)
Definition onePerType (fn : GetConditionsFn) (u : Unstructured) : Prop :=
  NoDup (typesOf (fn u)).

(** A custom resource that reports two conditions of type Ready. *)
Definition customTwoReady : Unstructured :=
  {| Object := list_to_map
       [ ("apiVersion", VString "example.com/v1");
         ("kind", VString "Widget");
         ("metadata", obj_of [("name", VString "w")]);
         ("status", obj_of [("conditions", VList
                               [ VMap (entry "Ready" "True" "Reconciled");
                                 VMap (entry "Ready" "False" "Degraded") ])]) ] |}.

(** A custom resource whose only Ready entry has status Unknown. *)
Definition customUnknown : Unstructured :=
  {| Object := list_to_map
       [ ("apiVersion", VString "example.com/v1");
         ("kind", VString "Widget");
         ("status", obj_of [("conditions", VList
                               [ VMap (entry "Ready" "Unknown" "Probing") ])]) ] |}.

(** The Pods of the package's tests. *)
Definition podNoStatus : Unstructured :=
  {| Object := list_to_map
       [ ("apiVersion", VString "v1"); ("kind", VString "Pod");
         ("metadata", obj_of [("name", VString "test")]) ] |}.

Definition podReady : Unstructured :=
  {| Object := list_to_map
       [ ("apiVersion", VString "v1"); ("kind", VString "Pod");
         ("metadata", obj_of [("name", VString "test"); ("namespace", VString "qual")]);
         ("status", obj_of [("conditions", VList
                               [ VMap (list_to_map [("type", VString "Ready");
                                                    ("status", VString "True")]) ]);
                            ("phase", VString "Running")]) ] |}.

Definition podCompletedOK : Unstructured :=
  {| Object := list_to_map
       [ ("apiVersion", VString "v1"); ("kind", VString "Pod");
         ("metadata", obj_of [("name", VString "test"); ("namespace", VString "qual")]);
         ("status", obj_of [("phase", VString "Succeeded");
                            ("conditions", VList
                               [ VMap (entry "Ready" "False" "PodCompleted") ])]) ] |}.

Definition podCompletedFail : Unstructured :=
  {| Object := list_to_map
       [ ("apiVersion", VString "v1"); ("kind", VString "Pod");
         ("metadata", obj_of [("name", VString "test"); ("namespace", VString "qual")]);
         ("status", obj_of [("phase", VString "Failed");
                            ("conditions", VList
                               [ VMap (entry "Ready" "False" "PodCompleted") ])]) ] |}.

(** A Pod whose status holds an Unknown Ready entry. *)
Definition podUnknown : Unstructured :=
  {| Object := list_to_map
       [ ("apiVersion", VString "v1"); ("kind", VString "Pod");
         ("status", obj_of [("phase", VString "Running");
                            ("conditions", VList
                               [ VMap (entry "Ready" "Unknown" "NodeLost") ])]) ] |}.

(** C4 as worded, for one Pod: if some entry of [status.conditions] has
    type Ready, status False and reason PodCompleted, then the Ready
    condition returned is True with reason "Phase: <phase>, PodCompleted". *)
Definition podCompletedIsReady (u : Unstructured) : Prop :=
  (exists c, conditionEntry (Object u) c
             /\ strField c "type" = "Ready"
             /\ strField c "status" = "False"
             /\ strField c "reason" = "PodCompleted") ->
  GetCondition (podConditions u).1 ConditionReady
  = Some {| Type_ := ConditionReady; Status := "True";
            Reason := "Phase: "
                      +:+ GetStringField (Object u) ".status.phase" "unknown"
                      +:+ ", PodCompleted" |}.

(** A succeeded Pod with a PodCompleted entry followed by a second entry
    of type Ready. *)
Definition podTwoReady : Unstructured :=
  {| Object := list_to_map
       [ ("apiVersion", VString "v1"); ("kind", VString "Pod");
         ("status", obj_of [("phase", VString "Succeeded");
                            ("conditions", VList
                               [ VMap (entry "Ready" "False" "PodCompleted");
                                 VMap (entry "Ready" "False" "ContainersNotReady") ])]) ] |}.

(** C5 as worded, for one Job: if some entry of [status.conditions] has
    type Complete and status True, the result is exactly Ready=True and
    Completed=True with one reason. *)
Definition jobCompleteIsCompleted (u : Unstructured) : Prop :=
  (exists c, conditionEntry (Object u) c
             /\ strField c "type" = "Complete"
             /\ strField c "status" = "True") ->
  exists m,
    jobConditions u
    = ([ {| Type_ := ConditionReady; Status := "True"; Reason := m |};
         {| Type_ := ConditionCompleted; Status := "True"; Reason := m |} ], None).

(** A Job that lists a Failed entry before a Complete one, both True. *)
Definition jobFailedThenComplete : Unstructured :=
  {| Object := list_to_map
       [ ("apiVersion", VString "batch/v1"); ("kind", VString "Job");
         ("spec", obj_of [("completions", VInteger KInt64 4)]);
         ("status", obj_of [("succeeded", VInteger KInt64 3);
                            ("failed", VInteger KInt64 1);
                            ("conditions", VList
                               [ VMap (entry "Failed" "True" "BackoffLimitExceeded");
                                 VMap (entry "Complete" "True" "") ])]) ] |}.

(** The Jobs of the package's tests. *)
Definition jobNoStatus : Unstructured :=
  {| Object := list_to_map
       [ ("apiVersion", VString "batch/v1"); ("kind", VString "Job");
         ("metadata", obj_of [("name", VString "test"); ("namespace", VString "qual")]) ] |}.

Definition jobComplete : Unstructured :=
  {| Object := list_to_map
       [ ("apiVersion", VString "batch/v1"); ("kind", VString "Job");
         ("metadata", obj_of [("name", VString "test"); ("namespace", VString "qual")]);
         ("status", obj_of [("succeeded", VInteger KInt64 1);
                            ("active", VInteger KInt64 0);
                            ("conditions", VList
                               [ VMap (list_to_map [("type", VString "Complete");
                                                    ("status", VString "True")]) ])]) ] |}.

Definition jobFailed : Unstructured :=
  {| Object := list_to_map
       [ ("apiVersion", VString "batch/v1"); ("kind", VString "Job");
         ("metadata", obj_of [("name", VString "test"); ("namespace", VString "qual")]);
         ("spec", obj_of [("completions", VInteger KInt64 4)]);
         ("status", obj_of [("succeeded", VInteger KInt64 3);
                            ("failed", VInteger KInt64 1);
                            ("conditions", VList
                               [ VMap (list_to_map [("type", VString "Failed");
                                                    ("status", VString "True")]) ])]) ] |}.

Definition jobInProgress : Unstructured :=
  {| Object := list_to_map
       [ ("apiVersion", VString "batch/v1"); ("kind", VString "Job");
         ("metadata", obj_of [("name", VString "test"); ("namespace", VString "qual")]);
         ("spec", obj_of [("completions", VInteger KInt64 10);
                          ("parallelism", VInteger KInt64 2)]);
         ("status", obj_of [("startTime", VString "2019-06-04T01:17:13Z");
                            ("succeeded", VInteger KInt64 3);
                            ("failed", VInteger KInt64 1);
                            ("active", VInteger KInt64 2);
                            ("conditions", VList
                               [ VMap (list_to_map [("type", VString "Failed");
                                                    ("status", VString "False")]);
                                 VMap (list_to_map [("type", VString "Complete");
                                                    ("status", VString "False")]) ])]) ] |}.

(** ** The batch loop *)

(** What the design document asks of a batch, item by item: from the
    client state [c] and the heap [h], the references [us] are processed
    in order into the items [rs].  A failed fetch and a failed evaluation
    give an item that carries only the error; otherwise the item carries
    the conditions of the object as fetched. *)
Inductive Processed {C : Type} `{Client C}
  : C -> heap -> list ptr -> list ResourceStatus -> Prop :=
| Processed_nil c h : Processed c h [] []
| Processed_fetch_error c h u us c' fetched err rs :
    ClientGet c {| Namespace := GetNamespace (h u); Name := GetName (h u) |} (h u)
    = (c', fetched, Some err) ->
    Processed c' (heapStore h u fetched) us rs ->
    Processed c h (u :: us)
              ({| Resource := u; Conditions := []; Error := Some err |} :: rs)
| Processed_eval_error c h u us c' fetched conditions err rs :
    ClientGet c {| Namespace := GetNamespace (h u); Name := GetName (h u) |} (h u)
    = (c', fetched, None) ->
    IsReady fetched = (conditions, Some err) ->
    Processed c' (heapStore h u fetched) us rs ->
    Processed c h (u :: us)
              ({| Resource := u; Conditions := []; Error := Some err |} :: rs)
| Processed_ok c h u us c' fetched conditions rs :
    ClientGet c {| Namespace := GetNamespace (h u); Name := GetName (h u) |} (h u)
    = (c', fetched, None) ->
    IsReady fetched = (conditions, None) ->
    Processed c' (heapStore h u fetched) us rs ->
    Processed c h (u :: us)
              ({| Resource := u; Conditions := conditions; Error := None |} :: rs).

(** The items that carry no error. *)
Definition succeeded (items : list ResourceStatus) : list ResourceStatus :=
  List.filter (fun s => negb (notNil (Error s))) items.

(** A cluster for the examples: the objects it holds, by name.  [Get]
    answers with the stored object, or with an error that names the
    object when there is none. *)
#[global] Instance mapClient : Client (gmap string Unstructured) :=
  {| ClientGet := fun cluster key u =>
       match cluster !! Name key with
       | Some stored => (cluster, stored, None)
       | None => (cluster, u, Some (ClientError (Name key +:+ " not found")))
       end |}.

(** A reference as the command holds it before the fetch: only names. *)
Definition named (kind name : string) : Unstructured :=
  {| Object := list_to_map
       [ ("apiVersion", VString "v1"); ("kind", VString kind);
         ("metadata", obj_of [("name", VString name)]) ] |}.

Definition exampleHeap : heap :=
  fun p => match p with
           | 0%nat => named "Pod" "done"
           | 1%nat => named "Pod" "gone"
           | 2%nat => named "Widget" "w"
           | _ => named "Pod" "lost"
           end.

Definition exampleCluster : gmap string Unstructured :=
  list_to_map
    [ ("done", {| Object := <["metadata" := obj_of [("name", VString "done")]]>
                              (Object podCompletedOK) |});
      ("w", customNoStatus) ].

Definition exampleCmd : StatusCmd (gmap string Unstructured) :=
  {| DynamicClient := exampleCluster; Out := []; Resources := [0; 1; 2; 3]%nat |}.

(** ** Further specification-side definitions *)

(** [s] contains the path separator. *)
Fixpoint hasDot (s : string) : bool :=
  match s with
  | EmptyString => false
  | String c s' => Ascii.eqb c "."%char || hasDot s'
  end.

Definition isMapValue (v : value) : bool :=
  match v with
  | VMap _ => true
  | _ => false
  end.

Definition isListValue (v : value) : bool :=
  match v with
  | VList _ => true
  | _ => false
  end.

(** The registry as a flat table: group, kind, evaluator. *)
Definition registry : list (string * string * GetConditionsFn) :=
  [ ("", "Service", serviceConditions);
    ("", "Pod", podConditions);
    ("", "PersistentVolumeClaim", pvcConditions);
    ("apps", "StatefulSet", stsConditions);
    ("apps", "DaemonSet", daemonsetConditions);
    ("apps", "Deployment", deploymentConditions);
    ("apps", "ReplicaSet", replicasetConditions);
    ("policy", "PodDisruptionBudget", pdbConditions);
    ("batch", "CronJob", alwaysReady);
    ("batch", "Job", jobConditions) ].

(** The two-step lookup of [GetLegacyReadyFn], on a group and a kind. *)
Definition lookupRegistry (g k : string) : option GetConditionsFn :=
  match legacyTypes !! g with
  | Some kinds => kinds !! k
  | None => None
  end.

(** A result that holds a Ready condition, True or False, and no error. *)
Definition readyReported (r : list Condition * option error) : Prop :=
  r.2 = None
  /\ exists c, GetCondition r.1 ConditionReady = Some c /\ statusOK c.

(** A StatefulSet-like object of another API version. *)
Definition deploymentBeta : Unstructured :=
  {| Object := <["apiVersion" := VString "apps/v1beta2"]> (Object deploymentDeadline) |}.

(** The result is exactly one condition, Ready with status True. *)
Definition reportsReady (r : list Condition * option error) : Prop :=
  exists reason,
    r = ([ {| Type_ := ConditionReady; Status := "True"; Reason := reason |} ], None).

(** The result is exactly one condition, Ready with status False and the
    given reason. *)
Definition reportsNotReady (reason : string) (r : list Condition * option error) : Prop :=
  r = ([ {| Type_ := ConditionReady; Status := "False"; Reason := reason |} ], None).

(** Entries the Deployment and ReplicaSet scans react to. *)
Definition isNewReplicaSetAvailable (c : object) : bool :=
  (strField c "type" =? "Progressing")%string
  && (strField c "status" =? "True")%string
  && (strField c "reason" =? "NewReplicaSetAvailable")%string.

Definition isAvailableTrue (c : object) : bool :=
  (strField c "type" =? "Available")%string
  && (strField c "status" =? "True")%string.

Definition isReplicaFailure (c : object) : bool :=
  (strField c "type" =? "ReplicaFailure")%string
  && (strField c "status" =? "True")%string.

(** The command [a] with another list of references. *)
Definition withResources {C : Type} (a : StatusCmd C) (us : list ptr) : StatusCmd C :=
  {| DynamicClient := DynamicClient a; Out := Out a; Resources := us |}.

(** A client for the examples that finds every object as it is handed in
    and counts its calls. *)
#[global] Instance countingClient : Client nat :=
  {| ClientGet := fun calls key u => (S calls, u, None) |}.

(** A heap for the examples: a completed Pod, a Job without status, and a
    custom resource. *)
Definition liveHeap : heap :=
  fun p => match p with
           | 0%nat => podCompletedOK
           | 1%nat => jobNoStatus
           | _ => customNoStatus
           end.

(** ** Package [internal/pkg/resourceconfig]: the prune resource *)

Definition isStringValue (v : value) : bool :=
  match v with
  | VString _ => true
  | _ => false
  end.

Definition asString (v : value) : option string :=
  match v with
  | VString s => Some s
  | _ => None
  end.

(** [u.GetAnnotations()] of apimachinery: the map under
    [metadata.annotations] when it is a map whose values are all strings,
    and no annotation at all otherwise. *)
Definition GetAnnotations (u : Unstructured) : gmap string string :=
  match api_unstructured.NestedFieldNoCopy (Object u) ["metadata"; "annotations"] with
  | (VMap m, true, None) =>
      if forallb isStringValue (snd <$> map_to_list m) then omap asString m else ∅
  | _ => ∅
  end.

(** The loop of [GetPruneResources]; [key] is the constant
    [inventory.InventoryAnnotation] of kustomize. *)
Fixpoint pruneLoop (key : string) (resources : list Unstructured)
         (count : Z) (result : option Unstructured) : Z * option Unstructured :=
  match resources with
  | [] => (count, result)
  | res :: rest =>
      let annotations := GetAnnotations res in
      match annotations !! key with
      | Some _ => pruneLoop key rest (count + 1) (Some res)
      | None => pruneLoop key rest count result
      end
  end.

(** [GetPruneResources]; the error is the text given to [fmt.Errorf]. *)
Definition GetPruneResources (key : string) (resources : list Unstructured)
  : option Unstructured * option string :=
  match pruneLoop key resources 0 None with
  | (count, result) =>
      if (count =? 0)%Z then (None, None)
      else if (count >? 1)%Z then
        (None, Some "found multiple resources with inventory annotations")
      else (result, None)
  end.

(** The resource carries the inventory annotation. *)
Definition hasInventory (key : string) (res : Unstructured) : bool :=
  match GetAnnotations res !! key with
  | Some _ => true
  | None => false
  end.

(** A ConfigMap with the given name and annotations. *)
Definition configMap (name : string) (annotations : list (string * value)) : Unstructured :=
  {| Object := list_to_map
       [ ("apiVersion", VString "v1"); ("kind", VString "ConfigMap");
         ("metadata", obj_of [("name", VString name);
                              ("annotations", obj_of annotations)]) ] |}.

(** ** More objects of the package's tests *)

(** A workload object of the group [apps] with the given generation,
    [spec] and [status]. *)
Definition workload (kind : string) (spec status : list (string * value)) : Unstructured :=
  {| Object := list_to_map
       [ ("apiVersion", VString "apps/v1"); ("kind", VString kind);
         ("metadata", obj_of [("generation", VInteger KInt64 1);
                              ("name", VString "test");
                              ("namespace", VString "qual")]);
         ("spec", obj_of spec);
         ("status", obj_of status) ] |}.

Definition stsBadStatus : Unstructured :=
  workload "StatefulSet" []
    [("observedGeneration", VInteger KInt64 1); ("currentReplicas", VInteger KInt64 1)].

Definition stsOK : Unstructured :=
  workload "StatefulSet" [("replicas", VInteger KInt64 4)]
    [("observedGeneration", VInteger KInt64 1); ("currentReplicas", VInteger KInt64 4);
     ("readyReplicas", VInteger KInt64 4); ("replicas", VInteger KInt64 4)].

Definition stsLessCurrent : Unstructured :=
  workload "StatefulSet" [("replicas", VInteger KInt64 4)]
    [("observedGeneration", VInteger KInt64 1); ("currentReplicas", VInteger KInt64 2);
     ("readyReplicas", VInteger KInt64 4); ("replicas", VInteger KInt64 4)].

Definition depOK : Unstructured :=
  workload "Deployment" []
    [("observedGeneration", VInteger KInt64 1); ("updatedReplicas", VInteger KInt64 1);
     ("readyReplicas", VInteger KInt64 1); ("availableReplicas", VInteger KInt64 1);
     ("replicas", VInteger KInt64 1);
     ("conditions", VList
        [ VMap (entry "Progressing" "True" "NewReplicaSetAvailable");
          VMap (list_to_map [("type", VString "Available"); ("status", VString "True")]) ])].

Definition depNotAvailable : Unstructured :=
  workload "Deployment" []
    [("observedGeneration", VInteger KInt64 1); ("updatedReplicas", VInteger KInt64 1);
     ("readyReplicas", VInteger KInt64 1); ("availableReplicas", VInteger KInt64 1);
     ("replicas", VInteger KInt64 1);
     ("conditions", VList
        [ VMap (entry "Progressing" "True" "NewReplicaSetAvailable");
          VMap (list_to_map [("type", VString "Available"); ("status", VString "False")]) ])].

Definition rsOK1 : Unstructured :=
  workload "ReplicaSet" []
    [("observedGeneration", VInteger KInt64 1); ("replicas", VInteger KInt64 2);
     ("readyReplicas", VInteger KInt64 2); ("availableReplicas", VInteger KInt64 2);
     ("labelledReplicas", VInteger KInt64 2);
     ("conditions", VList
        [ VMap (list_to_map [("type", VString "ReplicaFailure");
                             ("status", VString "False")]) ])].

Definition rsReplicaFailure : Unstructured :=
  workload "ReplicaSet" [("replicas", VInteger KInt64 4)]
    [("observedGeneration", VInteger KInt64 1); ("replicas", VInteger KInt64 4);
     ("readyReplicas", VInteger KInt64 4); ("labelledReplicas", VInteger KInt64 4);
     ("availableReplicas", VInteger KInt64 4);
     ("conditions", VList
        [ VMap (list_to_map [("type", VString "ReplicaFailure");
                             ("status", VString "True")]) ])].

Definition serviceLB (spec : list (string * value)) : Unstructured :=
  {| Object := list_to_map
       [ ("apiVersion", VString "v1"); ("kind", VString "Service");
         ("metadata", obj_of [("name", VString "test"); ("namespace", VString "qual")]);
         ("spec", obj_of (("type", VString "LoadBalancer") :: spec)) ] |}.

(** * Properties *)

(** ** The accessors *)

Section Accessors.

Import api_unstructured.

Lemma wrap_in_range z : GoInt.in_range z -> GoInt.wrap z = z.
Proof.
  unfold GoInt.in_range, GoInt.wrap, GoInt.bits. intros Hz.
  rewrite Z.mod_small; lia.
Qed.

Lemma wrap_range z : GoInt.in_range (GoInt.wrap z).
Proof.
  unfold GoInt.in_range, GoInt.wrap, GoInt.bits.
  pose proof (Z.mod_pos_bound (z + 2 ^ (64 - 1)) (2 ^ 64) ltac:(lia)). lia.
Qed.

Lemma walk_found seen v fields x :
  lookupPath v fields = Some x -> walk seen v fields = (x, true, None).
Proof.
  revert seen v. induction fields as [|f fs IH]; intros seen v; simpl.
  - congruence.
  - destruct v; try discriminate.
    destruct (m !! f) as [v'|]; [apply IH | discriminate].
Qed.

Lemma walk_absent seen v fields :
  lookupPath v fields = None -> (walk seen v fields).1.2 = false.
Proof.
  revert seen v. induction fields as [|f fs IH]; intros seen v; simpl.
  - discriminate.
  - destruct v; try reflexivity.
    destruct (m !! f) as [v'|]; [apply IH | reflexivity].
Qed.

Lemma walk_flags seen v fields x found err :
  walk seen v fields = (x, found, err) ->
  negb found || notNil err = false -> lookupPath v fields = Some x.
Proof.
  intros Hw Hf. destruct (lookupPath v fields) as [y|] eqn:E.
  - rewrite (walk_found seen _ _ _ E) in Hw. congruence.
  - apply (walk_absent seen) in E. rewrite Hw in E. simpl in E.
    subst found. discriminate.
Qed.

Lemma GetStringField_stringAt obj path d :
  GetStringField obj path d = default d (stringAt obj (fieldsOf path)).
Proof.
  unfold GetStringField, stringAt, NestedFieldNoCopy.
  destruct (lookupPath (VMap obj) (fieldsOf path)) as [x|] eqn:E.
  - rewrite (walk_found [] _ _ _ E). simpl. destruct x; reflexivity.
  - pose proof (walk_absent [] _ _ E) as Hf.
    destruct (walk [] (VMap obj) (fieldsOf path)) as [[x found] err].
    simpl in Hf. subst found. reflexivity.
Qed.

Lemma GetIntField_intAt obj path d :
  GetIntField obj path d = default d (intAt obj (fieldsOf path)).
Proof.
  unfold GetIntField, intAt, NestedFieldNoCopy.
  destruct (lookupPath (VMap obj) (fieldsOf path)) as [x|] eqn:E.
  - rewrite (walk_found [] _ _ _ E). simpl.
    destruct x as [| | |k z| | |]; try reflexivity. destruct k; reflexivity.
  - pose proof (walk_absent [] _ _ E) as Hf.
    destruct (walk [] (VMap obj) (fieldsOf path)) as [[x found] err].
    simpl in Hf. subst found. reflexivity.
Qed.

Lemma GetStringField_key (c : object) path k :
  fieldsOf path = [k] -> GetStringField c path "" = strField c k.
Proof.
  intros Hp. rewrite GetStringField_stringAt, Hp.
  unfold stringAt, strField. simpl.
  destruct (c !! k) as [v|]; [destruct v|]; reflexivity.
Qed.

Lemma entry_type c : GetStringField c ".type" "" = strField c "type".
Proof. apply GetStringField_key. reflexivity. Qed.

Lemma entry_type' c : GetStringField c "type" "" = strField c "type".
Proof. apply GetStringField_key. reflexivity. Qed.

Lemma entry_status c : GetStringField c ".status" "" = strField c "status".
Proof. apply GetStringField_key. reflexivity. Qed.

Lemma entry_status' c : GetStringField c "status" "" = strField c "status".
Proof. apply GetStringField_key. reflexivity. Qed.

Lemma entry_reason c : GetStringField c ".reason" "" = strField c "reason".
Proof. apply GetStringField_key. reflexivity. Qed.

Lemma entry_reason' c : GetStringField c "reason" "" = strField c "reason".
Proof. apply GetStringField_key. reflexivity. Qed.

End Accessors.

Ltac entry_fields :=
  rewrite ?entry_type, ?entry_type', ?entry_status, ?entry_status',
    ?entry_reason, ?entry_reason' in *.

Example TestGetIntField :
  GetIntField testObj ".f1.f2.i32" (-1) = 32
  /\ GetIntField testObj ".f1.f2.wrongname" (-1) = -1
  /\ GetIntField testObj ".f1.f2.i64" (-1) = 64
  /\ GetIntField testObj ".f1.f2.float" (-1) = -1.
Proof. vm_compute. auto. Qed.

Example TestGetStringField :
  GetStringField testObj ".ride" "horse" = "dragon"
  /\ GetStringField testObj ".destination" "north" = "north".
Proof. vm_compute. auto. Qed.

Example TestNestedMapSlice :
  NestedMapSlice testObj ["f1"; "f2"; "ms"]
  = (Some [ {[ "f1f2ms0f1" := VInteger KInt 22 ]};
            {[ "f1f2ms1f1" := VString "index1" ]} ], true, None)
  /\ NestedMapSlice testObj ["f1"; "f2"; "msbad"]
     = (None, true, Some (AccessorError ".f1.f2.msbad" (Some 1%nat)))
  /\ NestedMapSlice testObj ["f1"; "f2"; "wrongname"] = (None, false, None)
  /\ NestedMapSlice testObj ["f1"; "f2"; "i64"]
     = (None, true, Some (AccessorError ".f1.f2.i64" None)).
Proof. vm_compute. auto. Qed.

Example TestGetConditions :
  GetConditions ∅ = []
  /\ GetConditions testObj
     = [ {[ "f1f2ms0f1" := VInteger KInt 22 ]}; {[ "f1f2ms1f1" := VString "index1" ]} ].
Proof. vm_compute. auto. Qed.

(** C8, counterexample: the 16-bit integer 5 stored under [n] is not
    returned; [GetIntField] hands back the default [-1]. *)
Lemma int16_field_gives_default :
  lookupPath (VMap int16Obj) (fieldsOf ".n") = Some (VInteger KInt16 5)
  /\ GetIntField int16Obj ".n" (-1) = -1
  /\ ~ int_of_any_width_returned int16Obj ".n" (-1).
Proof.
  split; [reflexivity|]. split; [reflexivity|].
  unfold int_of_any_width_returned.
  replace (lookupPath (VMap int16Obj) (fieldsOf ".n"))
    with (Some (VInteger KInt16 5)) by reflexivity.
  replace (GetIntField int16Obj ".n" (-1)) with (-1) by reflexivity.
  vm_compute. discriminate.
Qed.

(** C8 (amended): both getters are total and never fail.  [GetStringField]
    returns the string found at the path and the caller's default in every
    other case (path absent, a segment that is not a map, a value that is
    not a string).  [GetIntField] returns the value found at the path when
    its dynamic type is [int], [int32] or [int64], converted to [int], and
    the caller's default in every other case, which includes floating-point
    values and the integer types of other widths. *)
Theorem getters_return_value_or_default obj path (ds : string) (di : Z) :
  GetStringField obj path ds
  = match lookupPath (VMap obj) (fieldsOf path) with
    | Some (VString s) => s
    | _ => ds
    end
  /\ GetIntField obj path di
     = match lookupPath (VMap obj) (fieldsOf path) with
       | Some (VInteger KInt z) => z
       | Some (VInteger KInt32 z) => GoInt.wrap z
       | Some (VInteger KInt64 z) => GoInt.wrap z
       | _ => di
       end
  /\ (forall z, GoInt.in_range z <-> GoInt.wrap z = z).
Proof.
  split; [|split].
  - rewrite GetStringField_stringAt. unfold stringAt.
    destruct (lookupPath _ _) as [[]|]; reflexivity.
  - rewrite GetIntField_intAt. unfold intAt.
    destruct (lookupPath _ _) as [[| | |[] z| | |]|]; reflexivity.
  - intros z. split; [apply wrap_in_range|].
    intros <-. apply wrap_range.
Qed.

(** ** The list under [status.conditions] *)

Section Conditions.

Import api_unstructured.

Lemma VMap_fmap_inj (cs cs' : list object) :
  VMap <$> cs = VMap <$> cs' -> cs = cs'.
Proof.
  revert cs'. induction cs as [|c cs IH]; intros [|c' cs'] Heq;
    simpl in Heq; try discriminate; [reflexivity|].
  injection Heq as -> Heq. f_equal. auto.
Qed.

Lemma mapSliceLoop_cases fields i l acc :
  (exists cs, l = VMap <$> cs
              /\ mapSliceLoop fields i l acc = (Some (acc ++ cs), true, None))
  \/ (exists e, mapSliceLoop fields i l acc = (None, true, Some e)).
Proof.
  revert i acc. induction l as [|v l IH]; intros i acc; simpl.
  - left. exists []. rewrite app_nil_r. auto.
  - destruct v; try (right; eexists; reflexivity).
    destruct (IH (S i) (acc ++ [m])) as [(cs & -> & E)|(e & E)].
    + left. exists (m :: cs). rewrite E, <- app_assoc. auto.
    + right. eauto.
Qed.

Lemma GetConditions_cases obj :
  GetConditions obj = [] \/ hasConditions obj (GetConditions obj).
Proof.
  unfold GetConditions, NestedMapSlice, NestedFieldNoCopy, hasConditions.
  fold conditionsPath.
  destruct (walk [] (VMap obj) conditionsPath) as [[x found] err] eqn:Hw.
  destruct (negb found || notNil err) eqn:Hf.
  - left. destruct err, found; reflexivity.
  - rewrite (walk_flags _ _ _ _ _ _ Hw Hf).
    destruct x; try (left; reflexivity).
    destruct (mapSliceLoop_cases conditionsPath 0 l []) as [(cs & -> & E)|(e & E)];
      rewrite E; simpl; auto.
Qed.

Lemma GetConditions_has obj cs : hasConditions obj cs -> GetConditions obj = cs.
Proof.
  unfold hasConditions. intros H.
  unfold GetConditions, NestedMapSlice, NestedFieldNoCopy. fold conditionsPath.
  rewrite (walk_found [] _ _ _ H). simpl.
  destruct (mapSliceLoop_cases conditionsPath 0 (VMap <$> cs) [])
    as [(cs' & Heq & E)|(e & E)].
  - rewrite E. simpl. symmetry. apply VMap_fmap_inj, Heq.
  - exfalso. revert E. generalize 0%nat, (@nil object). clear.
    induction cs as [|c cs IH]; intros i acc; simpl; [discriminate | apply IH].
Qed.

Lemma GetConditions_entry obj c : c ∈ GetConditions obj -> conditionEntry obj c.
Proof.
  intros Hin. destruct (GetConditions_cases obj) as [E|H].
  - rewrite E in Hin. inversion Hin.
  - exists (VMap <$> GetConditions obj). split; [exact H|].
    apply list_elem_of_fmap. eauto.
Qed.

Lemma conditionEntry_cases obj c :
  conditionEntry obj c -> GetConditions obj = [] \/ c ∈ GetConditions obj.
Proof.
  intros (l & Hl & Hin). destruct (GetConditions_cases obj) as [E|H]; [auto|].
  right. unfold hasConditions in H. rewrite Hl in H.
  injection H as ->. apply list_elem_of_fmap in Hin as (c' & Heq & Hc').
  congruence.
Qed.

End Conditions.

(** ** Generation check and StatefulSet strategy *)

Section Generation.

Lemma eqb_neq_Z (a b : Z) : a <> b -> (a =? b)%Z = false.
Proof. apply Z.eqb_neq. Qed.

Lemma sts_mismatch u :
  GetStringField (Object u) ".spec.updateStrategy.type" "" <> "ondelete" ->
  GetIntField (Object u) ".status.observedGeneration" (-1)
  <> GetIntField (Object u) ".metadata.generation" (-1) ->
  stsConditions u = mismatchResult.
Proof.
  intros Hs Hg. unfold stsConditions, UnstructuredContent.
  apply String.eqb_neq in Hs. rewrite Hs.
  rewrite (eqb_neq_Z _ _ Hg). reflexivity.
Qed.

Lemma deployment_mismatch u :
  GetIntField (Object u) ".status.observedGeneration" (-1)
  <> GetIntField (Object u) ".metadata.generation" (-1) ->
  deploymentConditions u = mismatchResult.
Proof.
  intros Hg. unfold deploymentConditions, UnstructuredContent.
  rewrite (eqb_neq_Z _ _ Hg). reflexivity.
Qed.

Lemma replicaset_mismatch u :
  GetIntField (Object u) ".status.observedGeneration" (-1)
  <> GetIntField (Object u) ".metadata.generation" (-1) ->
  replicasetConditions u = mismatchResult.
Proof.
  intros Hg. unfold replicasetConditions, UnstructuredContent.
  rewrite (eqb_neq_Z _ _ Hg). reflexivity.
Qed.

Lemma daemonset_mismatch u :
  GetIntField (Object u) ".status.observedGeneration" (-1)
  <> GetIntField (Object u) ".metadata.generation" (-1) ->
  daemonsetConditions u = mismatchResult.
Proof.
  intros Hg. unfold daemonsetConditions, UnstructuredContent.
  rewrite (eqb_neq_Z _ _ Hg). reflexivity.
Qed.

Lemma generic_mismatch u :
  GetIntField (Object u) ".status.observedGeneration"
              (GetIntField (Object u) ".metadata.generation" (-1))
  <> GetIntField (Object u) ".metadata.generation" (-1) ->
  readyConditionReader u = mismatchResult.
Proof.
  intros Hg. unfold readyConditionReader, UnstructuredContent.
  rewrite (eqb_neq_Z _ _ Hg). reflexivity.
Qed.

End Generation.

(** C2, counterexample: a StatefulSet with the [ondelete] strategy whose
    observed generation (1) is behind its generation (2) is reported
    Ready=True. *)
Lemma sts_ondelete_ignores_generation :
  GetIntField (Object stsOnDeleteStale) ".metadata.generation" (-1) = 2
  /\ GetIntField (Object stsOnDeleteStale) ".status.observedGeneration" (-1) = 1
  /\ stsConditions stsOnDeleteStale
     = ([ {| Type_ := ConditionReady; Status := "True"; Reason := "ondelete strategy" |} ],
        None)
  /\ ~ readyFalseOnMismatch stsConditions stsOnDeleteStale.
Proof.
  assert (Hout : stsConditions stsOnDeleteStale
                 = ([ {| Type_ := ConditionReady; Status := "True";
                         Reason := "ondelete strategy" |} ], None))
    by (vm_compute; reflexivity).
  assert (Hm : GetIntField (Object stsOnDeleteStale) ".metadata.generation" (-1) = 2)
    by (vm_compute; reflexivity).
  assert (Ho : GetIntField (Object stsOnDeleteStale) ".status.observedGeneration" (-1) = 1)
    by (vm_compute; reflexivity).
  split; [exact Hm|]. split; [exact Ho|]. split; [exact Hout|].
  unfold readyFalseOnMismatch. rewrite Hout, Hm, Ho. intros H.
  specialize (H ltac:(lia) _ ltac:(simpl; left) eq_refl).
  discriminate H.
Qed.

(** C2 (amended): when the generation read from [metadata.generation]
    differs from the one read from [status.observedGeneration] (both
    default to -1), the Deployment, ReplicaSet and DaemonSet evaluators
    return exactly one condition, Ready=False with the mismatch reason,
    whatever else the snapshot holds; the StatefulSet evaluator does so
    unless [spec.updateStrategy.type] is [ondelete], which it checks first;
    the generic evaluator does so with an absent observed generation
    defaulting to the generation itself. *)
Theorem generation_mismatch_forces_not_ready u :
  (GetIntField (Object u) ".status.observedGeneration" (-1)
   <> GetIntField (Object u) ".metadata.generation" (-1) ->
   deploymentConditions u = mismatchResult
   /\ replicasetConditions u = mismatchResult
   /\ daemonsetConditions u = mismatchResult
   /\ (GetStringField (Object u) ".spec.updateStrategy.type" "" <> "ondelete" ->
       stsConditions u = mismatchResult))
  /\ (GetIntField (Object u) ".status.observedGeneration"
                  (GetIntField (Object u) ".metadata.generation" (-1))
      <> GetIntField (Object u) ".metadata.generation" (-1) ->
      readyConditionReader u = mismatchResult).
Proof.
  split.
  - intros Hg. repeat split.
    + apply deployment_mismatch, Hg.
    + apply replicaset_mismatch, Hg.
    + apply daemonset_mismatch, Hg.
    + intros Hs. apply sts_mismatch; assumption.
  - apply generic_mismatch.
Qed.

(** Witness for C2: the stale Deployment, whose every other signal is
    healthy. *)
Lemma generation_mismatch_witness :
  deploymentConditions deploymentStale = mismatchResult
  /\ replicasetConditions deploymentStale = mismatchResult
  /\ daemonsetConditions deploymentStale = mismatchResult
  /\ stsConditions deploymentStale = mismatchResult
  /\ readyConditionReader deploymentStale = mismatchResult.
Proof.
  destruct (generation_mismatch_forces_not_ready deploymentStale) as [Hd Hg].
  destruct Hd as (H1 & H2 & H3 & H4); [vm_compute; discriminate|].
  split; [exact H1|]. split; [exact H2|]. split; [exact H3|]. split.
  - apply H4. vm_compute. discriminate.
  - apply Hg. vm_compute. discriminate.
Defined.

(** C6: a StatefulSet whose [spec.updateStrategy.type] is the string
    [ondelete] gets exactly one condition, Ready=True with reason
    "ondelete strategy", whatever its other fields are. *)
Theorem sts_ondelete_always_ready u :
  stringAt (Object u) ["spec"; "updateStrategy"; "type"] = Some "ondelete" ->
  stsConditions u
  = ([ {| Type_ := ConditionReady; Status := "True"; Reason := "ondelete strategy" |} ],
     None).
Proof.
  intros H. unfold stsConditions, UnstructuredContent.
  rewrite GetStringField_stringAt.
  change (fieldsOf ".spec.updateStrategy.type") with ["spec"; "updateStrategy"; "type"].
  rewrite H. reflexivity.
Qed.

(** Witness for C6: no ready replica and a stale observed generation. *)
Lemma sts_ondelete_witness :
  intAt (Object stsOnDeleteStale) ["status"; "readyReplicas"] = Some 0
  /\ intAt (Object stsOnDeleteStale) ["metadata"; "generation"] = Some 2
  /\ intAt (Object stsOnDeleteStale) ["status"; "observedGeneration"] = Some 1
  /\ stsConditions stsOnDeleteStale
     = ([ {| Type_ := ConditionReady; Status := "True"; Reason := "ondelete strategy" |} ],
        None).
Proof.
  split; [reflexivity|]. split; [reflexivity|]. split; [reflexivity|].
  apply (sts_ondelete_always_ready stsOnDeleteStale). reflexivity.
Defined.

(** ** The scans over [status.conditions] *)

Section Scans.

Lemma readyScan_spec cs rv ready :
  readyScan cs rv ready
  = (rv ++ (mirrorReady <$> List.filter isReadyEntry cs),
     ready || existsb isReadyEntry cs).
Proof.
  revert rv ready. induction cs as [|c cs IH]; intros rv ready; simpl.
  - rewrite app_nil_r, orb_false_r. reflexivity.
  - entry_fields.
    change (strField c "type" =? "Ready")%string with (isReadyEntry c).
    destruct (isReadyEntry c); simpl; [|apply IH].
    unfold mirrorReady at 1.
    destruct (strField c "status" =? "False")%string;
      rewrite IH, <- app_assoc; simpl; destruct ready; reflexivity.
Qed.

Lemma podReadyAfter_cons c cs rc :
  podReadyAfter (c :: cs) rc
  = podReadyAfter cs (if isReadyEntry c then podReadyOf c else rc).
Proof. reflexivity. Qed.

Lemma podScan_spec phase cs rv rc :
  Type_ rc = ConditionReady ->
  podScan phase cs rv rc
  = (rv ++ replicate (length (List.filter isCompletedEntry cs)) (podTerminal phase),
     podReadyAfter cs rc).
Proof.
  revert rv rc. induction cs as [|c cs IH]; intros rv rc Hrc.
  - simpl. rewrite app_nil_r. reflexivity.
  - rewrite podReadyAfter_cons. simpl podScan. simpl List.filter. entry_fields.
    unfold isCompletedEntry at 1, podReadyOf.
    change (strField c "type" =? "Ready")%string with (isReadyEntry c).
    destruct (isReadyEntry c); simpl; [|apply IH, Hrc].
    destruct (strField c "status" =? "True")%string; simpl.
    { rewrite IH by exact Hrc. unfold setStatus, setReason. simpl.
      rewrite Hrc. reflexivity. }
    destruct (strField c "reason" =? "PodCompleted")%string; simpl.
    + destruct (phase =? "Succeeded")%string eqn:Hp; rewrite IH by exact Hrc;
        rewrite <- app_assoc; unfold setStatus, setReason, podTerminal; simpl;
        rewrite Hrc, Hp; reflexivity.
    + rewrite IH by exact Hrc. unfold setStatus, setReason. simpl.
      rewrite Hrc. reflexivity.
Qed.

Lemma podReadyAfter_cases cs rc :
  podReadyAfter cs rc = rc
  \/ exists c, c ∈ cs /\ isReadyEntry c = true /\ podReadyAfter cs rc = podReadyOf c.
Proof.
  unfold podReadyAfter. revert rc. induction cs as [|c cs IH]; intros rc; simpl.
  - auto.
  - destruct (isReadyEntry c) eqn:Hc.
    + destruct (IH (podReadyOf c)) as [E|(c' & Hin & Hr & E)].
      * right. exists c. rewrite E. split; [left|auto].
      * right. exists c'. split; [right; exact Hin|auto].
    + destruct (IH rc) as [E|(c' & Hin & Hr & E)]; [auto|].
      right. exists c'. split; [right; exact Hin|auto].
Qed.

Lemma podReadyAfter_last pre c post rc :
  isReadyEntry c = true ->
  Forall (fun c' => isReadyEntry c' = false) post ->
  podReadyAfter (pre ++ c :: post) rc = podReadyOf c.
Proof.
  intros Hc Hpost. unfold podReadyAfter.
  rewrite fold_left_app. simpl. rewrite Hc.
  induction Hpost as [|c' post Hc' _ IH]; simpl; [reflexivity|].
  rewrite Hc'. exact IH.
Qed.

Lemma podReadyAfter_none cs rc :
  Forall (fun c' => isReadyEntry c' = false) cs -> podReadyAfter cs rc = rc.
Proof.
  unfold podReadyAfter. induction 1 as [|c cs Hc _ IH]; simpl; [reflexivity|].
  rewrite Hc. exact IH.
Qed.

Lemma jobScan_skip s f comp pre rest :
  Forall (fun c => isJobComplete c = false /\ isJobFailed c = false) pre ->
  jobScan s f comp (pre ++ rest) = jobScan s f comp rest.
Proof.
  induction 1 as [|c pre [Hc Hf] _ IH]; simpl; [reflexivity|].
  entry_fields. unfold isJobComplete, isJobFailed in Hc, Hf.
  destruct (strField c "type" =? "Complete")%string eqn:E1; simpl in Hc.
  - rewrite Hc. exact IH.
  - destruct (strField c "type" =? "Failed")%string; simpl in Hf; [|exact IH].
    rewrite Hf. exact IH.
Qed.

Lemma jobScan_complete s f comp c rest :
  isJobComplete c = true ->
  jobScan s f comp (c :: rest)
  = Some [ {| Type_ := ConditionReady; Status := "True";
              Reason := "Job Completed. succeded: " +:+ GoInt.fmt_d s
                        +:+ "/" +:+ GoInt.fmt_d comp |};
           {| Type_ := ConditionCompleted; Status := "True";
              Reason := "Job Completed. succeded: " +:+ GoInt.fmt_d s
                        +:+ "/" +:+ GoInt.fmt_d comp |} ].
Proof.
  unfold isJobComplete. intros [H1 H2]%andb_true_iff. simpl. entry_fields.
  rewrite H1, H2. reflexivity.
Qed.

Lemma jobScan_failed s f comp c rest :
  isJobFailed c = true ->
  jobScan s f comp (c :: rest)
  = Some [ {| Type_ := ConditionReady; Status := "True";
              Reason := "Job Failed. failed: " +:+ GoInt.fmt_d f
                        +:+ "/" +:+ GoInt.fmt_d comp |};
           {| Type_ := ConditionFailed; Status := "True";
              Reason := "Job Failed. failed: " +:+ GoInt.fmt_d f
                        +:+ "/" +:+ GoInt.fmt_d comp |} ].
Proof.
  unfold isJobFailed. intros [H1 H2]%andb_true_iff. simpl. entry_fields.
  apply String.eqb_eq in H1. rewrite H1, H2. reflexivity.
Qed.

Lemma jobScan_cases s f comp cs :
  jobScan s f comp cs = None
  \/ (exists m, jobScan s f comp cs
                = Some [ {| Type_ := ConditionReady; Status := "True"; Reason := m |};
                         {| Type_ := ConditionCompleted; Status := "True"; Reason := m |} ])
  \/ (exists m, jobScan s f comp cs
                = Some [ {| Type_ := ConditionReady; Status := "True"; Reason := m |};
                         {| Type_ := ConditionFailed; Status := "True"; Reason := m |} ]).
Proof.
  induction cs as [|c cs IH]; simpl; [auto|].
  destruct (GetStringField c ".type" "" =? "Complete")%string.
  - destruct (GetStringField c ".status" "" =? "True")%string; [|exact IH].
    right. left. eexists. reflexivity.
  - destruct (GetStringField c ".type" "" =? "Failed")%string; [|exact IH].
    destruct (GetStringField c ".status" "" =? "True")%string; [|exact IH].
    right. right. eexists. reflexivity.
Qed.

Lemma deploymentScan_inl rc cs p a x :
  deploymentScan rc cs p a = inl x -> x = setReason "Progress Deadline exceeded" rc.
Proof.
  revert p a. induction cs as [|c cs IH]; intros p a; simpl; [discriminate|].
  repeat match goal with
         | |- context [if ?b then _ else _] => destruct b
         end; try apply IH.
  congruence.
Qed.

Lemma deploymentScan_deadline rc cs p a c :
  c ∈ cs -> isDeadlineExceeded c = true ->
  deploymentScan rc cs p a = inl (setReason "Progress Deadline exceeded" rc).
Proof.
  intros Hin Hc. revert p a.
  induction Hin as [c cs|c c' cs Hin IH]; intros p a; simpl; entry_fields.
  - unfold isDeadlineExceeded in Hc. apply andb_true_iff in Hc as [H1 H2].
    rewrite H1, H2. reflexivity.
  - repeat match goal with
           | |- context [if ?b then _ else _] => destruct b
           end; auto.
Qed.

End Scans.

(** ** Shape of the results *)

Ltac split_ifs :=
  repeat match goal with
         | |- context [if ?b then _ else _] => destruct b
         end.

Ltac single_ready :=
  unfold singleReady; split_ifs;
  do 2 eexists; (split; [reflexivity | simpl; auto]).

Section Shapes.

Lemma alwaysReady_single u : singleReady (alwaysReady u).
Proof. unfold alwaysReady. single_ready. Qed.

Lemma sts_single u : singleReady (stsConditions u).
Proof. unfold stsConditions. cbv zeta. single_ready. Qed.

Lemma deployment_single u : singleReady (deploymentConditions u).
Proof.
  unfold deploymentConditions. cbv zeta.
  destruct (negb _); [single_ready|].
  destruct (deploymentScan _ _ _ _) as [x|[p a]] eqn:E.
  - apply deploymentScan_inl in E. subst x. single_ready.
  - single_ready.
Qed.

Lemma replicaset_single u : singleReady (replicasetConditions u).
Proof. unfold replicasetConditions. cbv zeta. single_ready. Qed.

Lemma daemonset_single u : singleReady (daemonsetConditions u).
Proof. unfold daemonsetConditions. cbv zeta. single_ready. Qed.

Lemma pvc_single u : singleReady (pvcConditions u).
Proof. unfold pvcConditions. cbv zeta. single_ready. Qed.

Lemma pdb_single u : singleReady (pdbConditions u).
Proof. unfold pdbConditions. cbv zeta. single_ready. Qed.

Lemma service_single u : singleReady (serviceConditions u).
Proof. unfold serviceConditions. cbv zeta. single_ready. Qed.

Lemma readyOnly_single u :
  Forall (fun fn : GetConditionsFn => singleReady (fn u)) readyOnlyEvaluators.
Proof.
  unfold readyOnlyEvaluators.
  repeat apply Forall_cons_2; try apply Forall_nil_2.
  - apply alwaysReady_single.
  - apply sts_single.
  - apply deployment_single.
  - apply replicaset_single.
  - apply daemonset_single.
  - apply pvc_single.
  - apply pdb_single.
  - apply service_single.
Qed.

(** Without a usable Progressing entry the Deployment is never ready. *)
Lemma deployment_no_conditions u :
  GetConditions (Object u) = [] ->
  exists reason,
    deploymentConditions u
    = ([ {| Type_ := ConditionReady; Status := "False"; Reason := reason |} ], None).
Proof.
  intros Hc. unfold deploymentConditions, UnstructuredContent. cbv zeta.
  rewrite Hc. simpl deploymentScan. cbv iota beta. simpl negb.
  split_ifs; eexists; reflexivity.
Qed.

End Shapes.

(** ** Deployment: the progress deadline *)

(** C7: when [status.conditions] has an entry of type Progressing with
    reason ProgressDeadlineExceeded, the Deployment evaluator returns
    exactly one condition, Ready with status False, whatever the replica
    counts are; when the generation check passes and the list holds only
    maps, the reason is "Progress Deadline exceeded". *)
Theorem deployment_deadline_exceeded_not_ready u c :
  conditionEntry (Object u) c ->
  strField c "type" = "Progressing" ->
  strField c "reason" = "ProgressDeadlineExceeded" ->
  exists reason,
    deploymentConditions u
    = ([ {| Type_ := ConditionReady; Status := "False"; Reason := reason |} ], None)
    /\ (GetIntField (Object u) ".status.observedGeneration" (-1)
        = GetIntField (Object u) ".metadata.generation" (-1) ->
        c ∈ GetConditions (Object u) ->
        reason = "Progress Deadline exceeded").
Proof.
  intros He Ht Hr.
  assert (Hd : isDeadlineExceeded c = true).
  { unfold isDeadlineExceeded. rewrite Ht, Hr. reflexivity. }
  destruct (Z.eq_dec (GetIntField (Object u) ".status.observedGeneration" (-1))
                     (GetIntField (Object u) ".metadata.generation" (-1))) as [Hg|Hg].
  - destruct (conditionEntry_cases _ _ He) as [Hnil|Hin].
    + destruct (deployment_no_conditions u Hnil) as [reason E].
      exists reason. split; [exact E|]. intros _ Hin. rewrite Hnil in Hin.
      inversion Hin.
    + exists "Progress Deadline exceeded". split; [|reflexivity].
      unfold deploymentConditions, UnstructuredContent. cbv zeta.
      rewrite Hg, Z.eqb_refl. cbv iota beta. simpl negb. cbv iota.
      rewrite (deploymentScan_deadline _ _ _ _ c Hin Hd). reflexivity.
  - exists generationMismatch. split; [|contradiction].
    apply deployment_mismatch, Hg.
Qed.

(** Witness for C7: every replica count is satisfied and both conditions
    are healthy, yet the deadline entry decides. *)
Lemma deployment_deadline_witness :
  deploymentConditions deploymentDeadline
  = ([ {| Type_ := ConditionReady; Status := "False";
          Reason := "Progress Deadline exceeded" |} ], None).
Proof.
  assert (Hin : entry "Progressing" "False" "ProgressDeadlineExceeded"
                ∈ GetConditions (Object deploymentDeadline)).
  { replace (GetConditions (Object deploymentDeadline))
      with [ entry "Progressing" "True" "NewReplicaSetAvailable";
             entry "Available" "True" "MinimumReplicasAvailable";
             entry "Progressing" "False" "ProgressDeadlineExceeded" ]
      by (vm_compute; reflexivity).
    do 2 right. left. }
  destruct (deployment_deadline_exceeded_not_ready deploymentDeadline
              (entry "Progressing" "False" "ProgressDeadlineExceeded"))
    as (reason & E & Hreason).
  - eexists. split; [reflexivity|]. do 2 right. left.
  - reflexivity.
  - reflexivity.
  - rewrite E, Hreason; [reflexivity | vm_compute; reflexivity | exact Hin].
Defined.

(** ** The generic evaluator *)

Lemma filter_none {A} (p : A -> bool) l :
  Forall (fun x => p x = false) l -> List.filter p l = [].
Proof. induction 1 as [|x l Hx _ IH]; simpl; [reflexivity|]. rewrite Hx. exact IH. Qed.

Lemma existsb_none {A} (p : A -> bool) l :
  Forall (fun x => p x = false) l -> existsb p l = false.
Proof. induction 1 as [|x l Hx _ IH]; simpl; [reflexivity|]. rewrite Hx. exact IH. Qed.

(** C9: when the generation check passes and no entry of
    [status.conditions] has type Ready (in particular when there is no
    such list), the generic evaluator returns exactly one condition,
    Ready=True with reason "No Ready condition found". *)
Theorem generic_no_ready_entry u :
  GetIntField (Object u) ".status.observedGeneration"
              (GetIntField (Object u) ".metadata.generation" (-1))
  = GetIntField (Object u) ".metadata.generation" (-1) ->
  (forall c, conditionEntry (Object u) c -> strField c "type" <> "Ready") ->
  readyConditionReader u
  = ([ {| Type_ := ConditionReady; Status := "True";
          Reason := "No Ready condition found" |} ], None).
Proof.
  intros Hg Hno. unfold readyConditionReader, UnstructuredContent. cbv zeta.
  rewrite Hg, Z.eqb_refl. simpl negb. cbv iota.
  rewrite readyScan_spec.
  assert (Hall : Forall (fun c => isReadyEntry c = false) (GetConditions (Object u))).
  { apply Forall_forall. intros c Hin. apply String.eqb_neq, Hno.
    apply GetConditions_entry, Hin. }
  rewrite (filter_none _ _ Hall), (existsb_none _ _ Hall). reflexivity.
Qed.

(** Witness for C9: a custom resource with no [status]. *)
Lemma generic_no_ready_entry_witness :
  lookupPath (VMap (Object customNoStatus)) ["status"] = None
  /\ readyConditionReader customNoStatus
     = ([ {| Type_ := ConditionReady; Status := "True";
             Reason := "No Ready condition found" |} ], None).
Proof.
  split; [reflexivity|].
  apply (generic_no_ready_entry customNoStatus).
  - vm_compute. reflexivity.
  - intros c (l & Hl & _). vm_compute in Hl. discriminate Hl.
Defined.

(** ** Statuses and condition types of the results *)

Section Results.

Lemma singleReady_statusOK r : singleReady r -> Forall statusOK r.1.
Proof.
  intros (st & reason & -> & Hst). simpl.
  apply Forall_cons_2; [exact Hst | apply Forall_nil_2].
Qed.

Lemma singleReady_types r : singleReady r -> typesOf r = [ConditionReady].
Proof. intros (st & reason & -> & _). reflexivity. Qed.

Lemma job_cases u :
  singleReady (jobConditions u)
  \/ (exists m, jobConditions u
                = ([ {| Type_ := ConditionReady; Status := "True"; Reason := m |};
                     {| Type_ := ConditionCompleted; Status := "True"; Reason := m |} ],
                   None))
  \/ (exists m, jobConditions u
                = ([ {| Type_ := ConditionReady; Status := "True"; Reason := m |};
                     {| Type_ := ConditionFailed; Status := "True"; Reason := m |} ],
                   None)).
Proof.
  unfold jobConditions. cbv zeta.
  match goal with
  | |- context [jobScan ?s ?f ?c ?cs] =>
      destruct (jobScan_cases s f c cs) as [E|[(m & E)|(m & E)]]; rewrite E
  end.
  - left. single_ready.
  - right. left. eauto.
  - right. right. eauto.
Qed.

Lemma job_statusOK u : Forall statusOK (jobConditions u).1.
Proof.
  destruct (job_cases u) as [H|[(m & ->)|(m & ->)]].
  - apply singleReady_statusOK, H.
  - simpl. repeat apply Forall_cons_2; try apply Forall_nil_2; left; reflexivity.
  - simpl. repeat apply Forall_cons_2; try apply Forall_nil_2; left; reflexivity.
Qed.

Lemma podTerminal_statusOK phase : statusOK (podTerminal phase).
Proof. unfold podTerminal. destruct (_ =? _)%string; left; reflexivity. Qed.

Lemma podReadyOf_statusOK c : statusOK (podReadyOf c).
Proof.
  unfold podReadyOf, statusOK. simpl.
  destruct (_ =? _)%string; [auto|]. destruct (_ =? _)%string; auto.
Qed.

(** The result of the Pod evaluator, in terms of the entries it read. *)
Lemma podConditions_spec u :
  let phase := GetStringField (Object u) ".status.phase" "unknown" in
  let cs := GetConditions (Object u) in
  let rc := podReadyAfter cs (NewFalseCondition ConditionReady) in
  podConditions u
  = (replicate (length (List.filter isCompletedEntry cs)) (podTerminal phase)
     ++ [ {| Type_ := ConditionReady; Status := Status rc;
             Reason := if (Reason rc =? "")%string then "Phase: " +:+ phase
                       else "Phase: " +:+ phase +:+ ", " +:+ Reason rc |} ],
     None).
Proof.
  intros phase cs rc. unfold podConditions, UnstructuredContent. cbv zeta.
  rewrite podScan_spec by reflexivity. fold phase cs rc. simpl app at 1.
  assert (Ht : Type_ rc = ConditionReady).
  { unfold rc. destruct (podReadyAfter_cases cs (NewFalseCondition ConditionReady))
      as [->|(c & _ & _ & ->)]; reflexivity. }
  destruct (Reason rc =? "")%string; unfold setReason; rewrite Ht; reflexivity.
Qed.

Lemma pod_statusOK u : Forall statusOK (podConditions u).1.
Proof.
  rewrite podConditions_spec. simpl. apply Forall_app. split.
  - apply Forall_forall. intros c Hc. apply elem_of_replicate in Hc as [-> _].
    apply podTerminal_statusOK.
  - apply Forall_cons_2; [|apply Forall_nil_2]. unfold statusOK. simpl.
    destruct (podReadyAfter_cases (GetConditions (Object u))
                (NewFalseCondition ConditionReady)) as [->|(c & _ & _ & ->)].
    + right. reflexivity.
    + apply podReadyOf_statusOK.
Qed.

(** The result of the generic evaluator once the generation check passed. *)
Lemma generic_spec u :
  GetIntField (Object u) ".status.observedGeneration"
              (GetIntField (Object u) ".metadata.generation" (-1))
  = GetIntField (Object u) ".metadata.generation" (-1) ->
  readyConditionReader u
  = (match List.filter isReadyEntry (GetConditions (Object u)) with
     | [] => [ {| Type_ := ConditionReady; Status := "True";
                  Reason := "No Ready condition found" |} ]
     | rs => mirrorReady <$> rs
     end, None).
Proof.
  intros Hg. unfold readyConditionReader, UnstructuredContent. cbv zeta.
  rewrite Hg, Z.eqb_refl. simpl negb. cbv iota.
  rewrite readyScan_spec. simpl app. simpl orb.
  induction (GetConditions (Object u)) as [|c cs IH]; simpl; [reflexivity|].
  destruct (isReadyEntry c); simpl; [reflexivity | exact IH].
Qed.

Lemma generic_cases u :
  readyConditionReader u = mismatchResult
  \/ readyConditionReader u
     = (match List.filter isReadyEntry (GetConditions (Object u)) with
        | [] => [ {| Type_ := ConditionReady; Status := "True";
                     Reason := "No Ready condition found" |} ]
        | rs => mirrorReady <$> rs
        end, None).
Proof.
  destruct (Z.eq_dec (GetIntField (Object u) ".status.observedGeneration"
                        (GetIntField (Object u) ".metadata.generation" (-1)))
                     (GetIntField (Object u) ".metadata.generation" (-1))) as [Hg|Hg].
  - right. apply generic_spec, Hg.
  - left. apply generic_mismatch, Hg.
Qed.

Lemma generic_statusOK u : Forall statusOK (readyConditionReader u).1.
Proof.
  destruct (generic_cases u) as [->| ->].
  - apply Forall_cons_2; [right; reflexivity | apply Forall_nil_2].
  - cbn [fst]. destruct (List.filter _ _) as [|c rs].
    + apply Forall_cons_2; [left; reflexivity | apply Forall_nil_2].
    + apply Forall_fmap, Forall_forall. intros c' _. unfold statusOK. simpl.
      destruct (_ =? _)%string; auto.
Qed.

Lemma evaluators_statusOK u :
  Forall (fun fn : GetConditionsFn => Forall statusOK (fn u).1) evaluators.
Proof.
  unfold evaluators, dedicatedEvaluators. repeat apply Forall_app_2.
  - eapply Forall_impl; [apply readyOnly_single|].
    intros fn. apply singleReady_statusOK.
  - repeat apply Forall_cons_2; try apply Forall_nil_2.
    + apply pod_statusOK.
    + apply job_statusOK.
  - apply Forall_cons_2; [apply generic_statusOK | apply Forall_nil_2].
Qed.

End Results.

(** ** Dispatch *)

Section Dispatch.

Lemma evaluators_elem fn :
  In fn [ alwaysReady; stsConditions; deploymentConditions; replicasetConditions;
          daemonsetConditions; pvcConditions; pdbConditions; serviceConditions;
          podConditions; jobConditions; readyConditionReader ] ->
  fn ∈ evaluators.
Proof. intros H. apply list_elem_of_In. exact H. Qed.

Ltac registry_entries H :=
  unfold list_to_map in H; cbn [fold_right fst snd] in H;
  repeat (apply lookup_insert_Some in H as [[_ H]|[_ H]]);
  try (rewrite lookup_empty in H; discriminate H).

(** Dispatch never fails and always lands on one of the evaluators. *)
Lemma IsReady_evaluators u : exists fn, fn ∈ evaluators /\ IsReady u = fn u.
Proof.
  unfold IsReady, GetLegacyReadyFn, GetGenericReadyFn. cbv zeta.
  destruct (legacyTypes !! schema.Group (GroupVersionKind u)) as [kinds|] eqn:Eg.
  - destruct (kinds !! schema.Kind (GroupVersionKind u)) as [fn|] eqn:Ek.
    + exists fn. split; [|reflexivity].
      unfold legacyTypes in Eg. registry_entries Eg;
        subst kinds; registry_entries Ek;
        subst fn; apply evaluators_elem; simpl; auto 20.
    + exists readyConditionReader. split; [|reflexivity].
      apply evaluators_elem; simpl; auto 20.
  - exists readyConditionReader. split; [|reflexivity].
    apply evaluators_elem; simpl; auto 20.
Qed.

Lemma IsReady_no_error u : (IsReady u).2 = None.
Proof.
  destruct (IsReady_evaluators u) as (fn & Hin & ->).
  apply list_elem_of_In in Hin. simpl in Hin.
  repeat (destruct Hin as [<-|Hin]); try contradiction;
    try (match goal with
         | |- (?f u).2 = None =>
             let H := fresh in
             assert (H : singleReady (f u))
               by first [ apply alwaysReady_single | apply sts_single
                        | apply deployment_single | apply replicaset_single
                        | apply daemonset_single | apply pvc_single
                        | apply pdb_single | apply service_single ];
             destruct H as (? & ? & -> & _); reflexivity
         end).
  - rewrite podConditions_spec. reflexivity.
  - destruct (job_cases u) as [(? & ? & -> & _)|[(m & ->)|(m & ->)]]; reflexivity.
  - destruct (generic_cases u) as [->| ->]; reflexivity.
Qed.

End Dispatch.

(** The Pod cases of the package's tests, through the dispatcher. *)
Example TestPodStatus :
  IsReady podNoStatus
  = ([ {| Type_ := ConditionReady; Status := "False"; Reason := "Phase: unknown" |} ],
     None)
  /\ IsReady podReady
     = ([ {| Type_ := ConditionReady; Status := "True"; Reason := "Phase: Running" |} ],
        None)
  /\ IsReady podCompletedOK
     = ([ {| Type_ := ConditionCompleted; Status := "True"; Reason := "Pod Succeeded" |};
          {| Type_ := ConditionReady; Status := "True";
             Reason := "Phase: Succeeded, PodCompleted" |} ], None)
  /\ IsReady podCompletedFail
     = ([ {| Type_ := ConditionFailed; Status := "True"; Reason := "Pod phase: Failed" |};
          {| Type_ := ConditionReady; Status := "True";
             Reason := "Phase: Failed, PodCompleted" |} ], None).
Proof. vm_compute. auto. Qed.

(** An Unknown status in the input is mirrored as True by the generic
    evaluator and as False by the Pod evaluator. *)
Example unknown_status_is_mapped :
  IsReady customUnknown
  = ([ {| Type_ := ConditionReady; Status := "True"; Reason := "Probing" |} ], None)
  /\ IsReady podUnknown
     = ([ {| Type_ := ConditionReady; Status := "False";
             Reason := "Phase: Running, NodeLost" |} ], None).
Proof. vm_compute. auto. Qed.

(** C10: every condition returned by any evaluator, dedicated or generic,
    and so every condition returned through the dispatcher, has status
    "True" or "False"; "Unknown" is never produced. *)
Theorem every_status_true_or_false u :
  Forall (fun fn : GetConditionsFn => Forall statusOK (fn u).1) evaluators
  /\ Forall statusOK (IsReady u).1.
Proof.
  split; [apply evaluators_statusOK|].
  destruct (IsReady_evaluators u) as (fn & Hin & ->).
  pose proof (evaluators_statusOK u) as Hall.
  rewrite Forall_forall in Hall. apply Hall, Hin.
Qed.

(** ** One condition per type *)

Section PerType.

Lemma NoDup_one (a : ConditionType) : NoDup [a].
Proof. apply NoDup_singleton. Qed.

Lemma NoDup_two (a b : ConditionType) : a <> b -> NoDup [a; b].
Proof.
  intros Hab. apply NoDup_cons. split; [|apply NoDup_one].
  intros Hin. apply list_elem_of_singleton in Hin. contradiction.
Qed.

Lemma completed_le_ready cs :
  (length (List.filter isCompletedEntry cs) <= length (List.filter isReadyEntry cs))%nat.
Proof.
  induction cs as [|c cs IH]; simpl; [lia|].
  unfold isCompletedEntry at 1.
  destruct (isReadyEntry c); simpl; [|exact IH].
  destruct (negb _ && _); simpl; lia.
Qed.

Lemma podTerminal_type phase : Type_ (podTerminal phase) <> ConditionReady.
Proof. unfold podTerminal. destruct (_ =? _)%string; discriminate. Qed.

Lemma readyOnly_onePerType u :
  Forall (fun fn => onePerType fn u) readyOnlyEvaluators.
Proof.
  eapply Forall_impl; [apply readyOnly_single|].
  intros fn H. unfold onePerType. rewrite (singleReady_types _ H). apply NoDup_one.
Qed.

Lemma job_onePerType u : onePerType jobConditions u.
Proof.
  unfold onePerType.
  destruct (job_cases u) as [H|[(m & ->)|(m & ->)]].
  - rewrite (singleReady_types _ H). apply NoDup_one.
  - apply NoDup_two. discriminate.
  - apply NoDup_two. discriminate.
Qed.

Lemma pod_onePerType u :
  (length (List.filter isReadyEntry (GetConditions (Object u))) <= 1)%nat ->
  onePerType podConditions u.
Proof.
  intros Hle. unfold onePerType, typesOf. rewrite podConditions_spec. cbn [fst].
  pose proof (completed_le_ready (GetConditions (Object u))) as Hc.
  destruct (length (List.filter isCompletedEntry (GetConditions (Object u))))
    as [|[|k]]; [| |lia]; simpl.
  - apply NoDup_one.
  - apply NoDup_two, podTerminal_type.
Qed.

Lemma generic_onePerType u :
  (length (List.filter isReadyEntry (GetConditions (Object u))) <= 1)%nat ->
  onePerType readyConditionReader u.
Proof.
  intros Hle. unfold onePerType, typesOf.
  destruct (generic_cases u) as [->| ->]; cbn [fst].
  - apply NoDup_one.
  - destruct (List.filter isReadyEntry (GetConditions (Object u))) as [|c [|c' rs]];
      simpl in *; [apply NoDup_one | apply NoDup_one | lia].
Qed.

End PerType.

(** C1, counterexample: for a resource with two entries of type Ready the
    generic evaluator returns two conditions of type Ready. *)
Lemma generic_two_ready_conditions :
  readyConditionReader customTwoReady
  = ([ {| Type_ := ConditionReady; Status := "True"; Reason := "Reconciled" |};
       {| Type_ := ConditionReady; Status := "False"; Reason := "Degraded" |} ], None)
  /\ ~ onePerType readyConditionReader customTwoReady.
Proof.
  assert (E : readyConditionReader customTwoReady
              = ([ {| Type_ := ConditionReady; Status := "True"; Reason := "Reconciled" |};
                   {| Type_ := ConditionReady; Status := "False"; Reason := "Degraded" |} ],
                 None))
    by (vm_compute; reflexivity).
  split; [exact E|].
  unfold onePerType, typesOf. rewrite E. simpl. intros H.
  apply NoDup_cons in H as [Hn _]. apply Hn. left.
Qed.

(** C1 (amended): every dedicated evaluator other than the Pod one returns
    at most one condition per condition type, for every snapshot; the Pod
    evaluator and the generic evaluator do so whenever the entries read
    from [status.conditions] include at most one entry of type Ready (each
    further entry of type Ready can add a condition of a type already
    present). *)
Theorem one_condition_per_type u :
  Forall (fun fn => onePerType fn u) (readyOnlyEvaluators ++ [jobConditions])
  /\ ((length (List.filter isReadyEntry (GetConditions (Object u))) <= 1)%nat ->
      onePerType podConditions u /\ onePerType readyConditionReader u).
Proof.
  split.
  - apply Forall_app_2; [apply readyOnly_onePerType|].
    apply Forall_cons_2; [apply job_onePerType | apply Forall_nil_2].
  - intros Hle. split; [apply pod_onePerType | apply generic_onePerType]; exact Hle.
Qed.

(** Witness for C1: the completed Pod of the tests, read by the Pod
    evaluator and by the generic one. *)
Lemma one_condition_per_type_witness :
  (length (List.filter isReadyEntry (GetConditions (Object podCompletedOK))) <= 1)%nat
  /\ onePerType podConditions podCompletedOK
  /\ onePerType readyConditionReader podCompletedOK.
Proof.
  assert (Hle : (length (List.filter isReadyEntry
                           (GetConditions (Object podCompletedOK))) <= 1)%nat)
    by (vm_compute; lia).
  split; [exact Hle|].
  apply (proj2 (one_condition_per_type podCompletedOK)). exact Hle.
Defined.

(** ** Pod *)

Section Pod.

Lemma completed_entry_count_pos pre c post :
  isCompletedEntry c = true ->
  (1 <= length (List.filter isCompletedEntry (pre ++ c :: post)))%nat.
Proof.
  intros Hc. rewrite List.filter_app, length_app. simpl. rewrite Hc. simpl. lia.
Qed.

Lemma completed_entry_count_one pre c post :
  isCompletedEntry c = true ->
  Forall (fun c' => isReadyEntry c' = false) pre ->
  Forall (fun c' => isReadyEntry c' = false) post ->
  length (List.filter isCompletedEntry (pre ++ c :: post)) = 1%nat.
Proof.
  intros Hc Hpre Hpost.
  assert (Hno : forall l, Forall (fun c' => isReadyEntry c' = false) l ->
                          List.filter isCompletedEntry l = []).
  { intros l Hl. apply filter_none. eapply Forall_impl; [exact Hl|].
    intros c' Hc'. unfold isCompletedEntry. rewrite Hc'. reflexivity. }
  rewrite List.filter_app. simpl. rewrite Hc, (Hno _ Hpre), (Hno _ Hpost).
  reflexivity.
Qed.

Lemma pod_never_both u :
  ~ (ConditionCompleted ∈ typesOf (podConditions u)
     /\ ConditionFailed ∈ typesOf (podConditions u)).
Proof.
  unfold typesOf. rewrite podConditions_spec. cbn [fst].
  rewrite fmap_app, fmap_replicate. simpl.
  intros [Hc Hf].
  apply elem_of_app in Hc as [Hc|Hc]; [|apply list_elem_of_singleton in Hc; discriminate].
  apply elem_of_app in Hf as [Hf|Hf]; [|apply list_elem_of_singleton in Hf; discriminate].
  apply elem_of_replicate in Hc as [Hc _]. apply elem_of_replicate in Hf as [Hf _].
  rewrite <- Hc in Hf. discriminate.
Qed.

End Pod.

(** C4, counterexample: a succeeded Pod whose PodCompleted entry is
    followed by another entry of type Ready gets Completed=True and
    Ready=False. *)
Lemma pod_later_ready_entry_wins :
  podConditions podTwoReady
  = ([ {| Type_ := ConditionCompleted; Status := "True"; Reason := "Pod Succeeded" |};
       {| Type_ := ConditionReady; Status := "False";
          Reason := "Phase: Succeeded, ContainersNotReady" |} ], None)
  /\ ~ podCompletedIsReady podTwoReady.
Proof.
  assert (E : podConditions podTwoReady
              = ([ {| Type_ := ConditionCompleted; Status := "True";
                      Reason := "Pod Succeeded" |};
                   {| Type_ := ConditionReady; Status := "False";
                      Reason := "Phase: Succeeded, ContainersNotReady" |} ], None))
    by (vm_compute; reflexivity).
  split; [exact E|].
  unfold podCompletedIsReady. rewrite E. intros H.
  assert (Hex : exists c, conditionEntry (Object podTwoReady) c
                          /\ strField c "type" = "Ready"
                          /\ strField c "status" = "False"
                          /\ strField c "reason" = "PodCompleted").
  { exists (entry "Ready" "False" "PodCompleted"). split.
    - eexists. split; [reflexivity|]. left.
    - split; [reflexivity|]. split; reflexivity. }
  specialize (H Hex). vm_compute in H. discriminate H.
Qed.

(** C4 (amended): let [status.conditions] of a Pod be a list of maps whose
    last entry of type Ready has a status other than True (False, say) and
    reason PodCompleted.  The result then ends with Ready=True, reason
    "Phase: <phase>, PodCompleted", preceded by [k >= 1] copies of one
    terminal condition, one for each entry of type Ready with such a
    status and reason ([k = 1] when there is a single entry of type
    Ready): Completed=True "Pod Succeeded" when the phase is Succeeded,
    Failed=True "Pod phase: <phase>" for any other phase.  For every Pod,
    Completed and Failed are never both present. *)
Theorem pod_completed u pre c post :
  hasConditions (Object u) (pre ++ c :: post) ->
  Forall (fun c' => isReadyEntry c' = false) post ->
  strField c "type" = "Ready" ->
  strField c "status" <> "True" ->
  strField c "reason" = "PodCompleted" ->
  let phase := GetStringField (Object u) ".status.phase" "unknown" in
  let k := length (List.filter isCompletedEntry (pre ++ c :: post)) in
  let ready := {| Type_ := ConditionReady; Status := "True";
                  Reason := "Phase: " +:+ phase +:+ ", PodCompleted" |} in
  (1 <= k)%nat
  /\ (Forall (fun c' => isReadyEntry c' = false) pre -> k = 1%nat)
  /\ (phase = "Succeeded" ->
      podConditions u
      = (replicate k {| Type_ := ConditionCompleted; Status := "True";
                        Reason := "Pod Succeeded" |} ++ [ready], None))
  /\ (phase <> "Succeeded" ->
      podConditions u
      = (replicate k {| Type_ := ConditionFailed; Status := "True";
                        Reason := "Pod phase: " +:+ phase |} ++ [ready], None))
  /\ ~ (ConditionCompleted ∈ typesOf (podConditions u)
        /\ ConditionFailed ∈ typesOf (podConditions u)).
Proof.
  intros Hcs Hpost Ht Hs Hr phase k ready.
  assert (Hre : isReadyEntry c = true) by (unfold isReadyEntry; rewrite Ht; reflexivity).
  assert (Hst : (strField c "status" =? "True")%string = false)
    by (apply String.eqb_neq, Hs).
  assert (Hce : isCompletedEntry c = true).
  { unfold isCompletedEntry. rewrite Hre, Hst, Hr. reflexivity. }
  assert (Hout : podConditions u = (replicate k (podTerminal phase) ++ [ready], None)).
  { rewrite podConditions_spec. cbv zeta. rewrite (GetConditions_has _ _ Hcs).
    rewrite (podReadyAfter_last _ _ _ _ Hre Hpost).
    unfold podReadyOf. simpl. rewrite Hst, Hr. reflexivity. }
  split; [apply completed_entry_count_pos, Hce|].
  split; [intros Hpre; apply completed_entry_count_one; assumption|].
  split; [|split].
  - intros Hp. rewrite Hout. unfold podTerminal. rewrite Hp. reflexivity.
  - intros Hp. rewrite Hout. unfold podTerminal.
    apply String.eqb_neq in Hp. rewrite Hp. reflexivity.
  - apply pod_never_both.
Qed.

(** Witness for C4: the succeeded Pod of the tests. *)
Lemma pod_completed_witness :
  podConditions podCompletedOK
  = ([ {| Type_ := ConditionCompleted; Status := "True"; Reason := "Pod Succeeded" |};
       {| Type_ := ConditionReady; Status := "True";
          Reason := "Phase: Succeeded, PodCompleted" |} ], None).
Proof.
  destruct (pod_completed podCompletedOK [] (entry "Ready" "False" "PodCompleted") [])
    as (_ & _ & H & _).
  - reflexivity.
  - apply Forall_nil_2.
  - reflexivity.
  - vm_compute. discriminate.
  - reflexivity.
  - rewrite H; [reflexivity | vm_compute; reflexivity].
Defined.

(** ** Job *)

(** The Job cases of the package's tests, through the dispatcher. *)
Example TestJobStatus :
  IsReady jobNoStatus
  = ([ {| Type_ := ConditionReady; Status := "False"; Reason := "Job not started" |} ],
     None)
  /\ IsReady jobComplete
     = ([ {| Type_ := ConditionReady; Status := "True";
             Reason := "Job Completed. succeded: 1/1" |};
          {| Type_ := ConditionCompleted; Status := "True";
             Reason := "Job Completed. succeded: 1/1" |} ], None)
  /\ IsReady jobFailed
     = ([ {| Type_ := ConditionReady; Status := "True";
             Reason := "Job Failed. failed: 1/4" |};
          {| Type_ := ConditionFailed; Status := "True";
             Reason := "Job Failed. failed: 1/4" |} ], None)
  /\ IsReady jobInProgress
     = ([ {| Type_ := ConditionReady; Status := "True";
             Reason := "Job in progress. success:3, active: 2, failed: 1" |} ], None).
Proof. vm_compute. auto. Qed.

(** C5, counterexample: a Job whose list has a Failed entry before the
    Complete one (both True) is reported Ready=True and Failed=True; no
    Completed condition is returned. *)
Lemma job_first_terminal_entry_wins :
  jobConditions jobFailedThenComplete
  = ([ {| Type_ := ConditionReady; Status := "True";
          Reason := "Job Failed. failed: 1/4" |};
       {| Type_ := ConditionFailed; Status := "True";
          Reason := "Job Failed. failed: 1/4" |} ], None)
  /\ ~ jobCompleteIsCompleted jobFailedThenComplete.
Proof.
  assert (E : jobConditions jobFailedThenComplete
              = ([ {| Type_ := ConditionReady; Status := "True";
                      Reason := "Job Failed. failed: 1/4" |};
                   {| Type_ := ConditionFailed; Status := "True";
                      Reason := "Job Failed. failed: 1/4" |} ], None))
    by (vm_compute; reflexivity).
  split; [exact E|].
  unfold jobCompleteIsCompleted. rewrite E. intros H.
  destruct H as [m Hm].
  - exists (entry "Complete" "True" ""). split.
    + eexists. split; [reflexivity|]. right. left.
    + split; reflexivity.
  - discriminate Hm.
Qed.

(** C5 (amended): the first entry of [status.conditions] (a list of maps)
    that is Complete or Failed with status True decides.  If it is
    Complete, the result is exactly Ready=True and Completed=True, both
    with the reason "Job Completed. succeded: <succeeded>/<completions>";
    if it is Failed, exactly Ready=True and Failed=True, both with the
    reason "Job Failed. failed: <failed>/<completions>".  If no entry is
    Complete or Failed with status True, the result is the single condition
    Ready=False "Job not started" when [status.startTime] is absent, empty
    or not a string, and a single Ready=True in-progress condition
    otherwise. *)
Theorem job_conditions u :
  let obj := Object u in
  let completions :=
    GetIntField obj ".spec.completions" (GetIntField obj ".spec.parallelism" 1) in
  let succeeded := GetIntField obj ".status.succeeded" 0 in
  let active := GetIntField obj ".status.active" 0 in
  let failed := GetIntField obj ".status.failed" 0 in
  (forall pre c post,
      hasConditions obj (pre ++ c :: post) ->
      Forall (fun c' => isJobComplete c' = false /\ isJobFailed c' = false) pre ->
      (strField c "type" = "Complete" /\ strField c "status" = "True" ->
       exists m,
         m = "Job Completed. succeded: " +:+ GoInt.fmt_d succeeded
             +:+ "/" +:+ GoInt.fmt_d completions
         /\ jobConditions u
            = ([ {| Type_ := ConditionReady; Status := "True"; Reason := m |};
                 {| Type_ := ConditionCompleted; Status := "True"; Reason := m |} ],
               None))
      /\ (strField c "type" = "Failed" /\ strField c "status" = "True" ->
          exists m,
            m = "Job Failed. failed: " +:+ GoInt.fmt_d failed
                +:+ "/" +:+ GoInt.fmt_d completions
            /\ jobConditions u
               = ([ {| Type_ := ConditionReady; Status := "True"; Reason := m |};
                    {| Type_ := ConditionFailed; Status := "True"; Reason := m |} ],
                  None)))
  /\ ((forall c, conditionEntry obj c ->
                 isJobComplete c = false /\ isJobFailed c = false) ->
      (stringAt obj ["status"; "startTime"] = None
       \/ stringAt obj ["status"; "startTime"] = Some "" ->
       jobConditions u
       = ([ {| Type_ := ConditionReady; Status := "False";
               Reason := "Job not started" |} ], None))
      /\ (forall t, stringAt obj ["status"; "startTime"] = Some t -> t <> "" ->
          jobConditions u
          = ([ {| Type_ := ConditionReady; Status := "True";
                  Reason := "Job in progress. success:" +:+ GoInt.fmt_d succeeded
                            +:+ ", active: " +:+ GoInt.fmt_d active
                            +:+ ", failed: " +:+ GoInt.fmt_d failed |} ], None))).
Proof.
  intros obj completions succeeded active failed. split.
  - intros pre c post Hcs Hpre. split.
    + intros [Ht Hs]. eexists. split; [reflexivity|].
      unfold jobConditions, UnstructuredContent. cbv zeta. fold obj.
      rewrite (GetConditions_has _ _ Hcs), (jobScan_skip _ _ _ _ _ Hpre).
      rewrite jobScan_complete; [reflexivity|].
      unfold isJobComplete. rewrite Ht, Hs. reflexivity.
    + intros [Ht Hs]. eexists. split; [reflexivity|].
      unfold jobConditions, UnstructuredContent. cbv zeta. fold obj.
      rewrite (GetConditions_has _ _ Hcs), (jobScan_skip _ _ _ _ _ Hpre).
      rewrite jobScan_failed; [reflexivity|].
      unfold isJobFailed. rewrite Ht, Hs. reflexivity.
  - intros Hno.
    assert (Hscan : jobScan succeeded failed completions (GetConditions obj) = None).
    { rewrite <- (app_nil_r (GetConditions obj)). rewrite jobScan_skip; [reflexivity|].
      apply Forall_forall. intros c Hin. apply Hno, GetConditions_entry, Hin. }
    split.
    + intros Hst. unfold jobConditions, UnstructuredContent. cbv zeta. fold obj.
      fold succeeded failed completions. rewrite Hscan.
      rewrite GetStringField_stringAt.
      change (fieldsOf ".status.startTime") with ["status"; "startTime"].
      destruct Hst as [-> | ->]; reflexivity.
    + intros t Ht Hne. unfold jobConditions, UnstructuredContent. cbv zeta. fold obj.
      fold succeeded failed completions. rewrite Hscan.
      rewrite GetStringField_stringAt.
      change (fieldsOf ".status.startTime") with ["status"; "startTime"].
      rewrite Ht. simpl default. apply String.eqb_neq in Hne. rewrite Hne.
      reflexivity.
Qed.

(** Witness for C5: the completed Job of the tests. *)
Lemma job_conditions_witness :
  jobConditions jobComplete
  = ([ {| Type_ := ConditionReady; Status := "True";
          Reason := "Job Completed. succeded: 1/1" |};
       {| Type_ := ConditionCompleted; Status := "True";
          Reason := "Job Completed. succeded: 1/1" |} ], None).
Proof.
  destruct (job_conditions jobComplete) as [H _].
  destruct (H [] (list_to_map [("type", VString "Complete"); ("status", VString "True")]) [])
    as [Hc _].
  - reflexivity.
  - apply Forall_nil_2.
  - destruct Hc as (m & -> & ->); [split; reflexivity|]. vm_compute. reflexivity.
Defined.

(** ** The batch loop *)

Section Batch.

Context {C : Type} `{Client C}.

Lemma succeeded_app (xs ys : list ResourceStatus) :
  succeeded (xs ++ ys) = succeeded xs ++ succeeded ys.
Proof. apply List.filter_app. Qed.

(** The loop appends to its accumulators: one item per reference, in
    order, and one error per item that carries one. *)
Lemma doLoop_spec us : forall c h rs errs c' h' rs' errs',
  doLoop us c h rs errs = (c', h', rs', errs') ->
  exists items,
    rs' = rs ++ items
    /\ errs' = errs ++ omap Error items
    /\ Resource <$> items = us
    /\ Processed c h us items.
Proof.
  induction us as [|u us IH]; intros c h rs errs c' h' rs' errs' Hrun; simpl in Hrun.
  - injection Hrun as <- <- <- <-. exists []. rewrite !app_nil_r.
    repeat split; constructor.
  - destruct (ClientGet c _ (h u)) as [[c1 fetched] [err|]] eqn:Hget.
    + apply IH in Hrun as (items & -> & -> & Hres & Hp).
      exists ({| Resource := u; Conditions := []; Error := Some err |} :: items).
      split; [rewrite <- ?app_assoc; reflexivity|].
      split; [rewrite <- ?app_assoc; reflexivity|].
      split; [rewrite fmap_cons, Hres; reflexivity|].
      eapply Processed_fetch_error; eassumption.
    + assert (Hh : heapStore h u fetched u = fetched)
        by (unfold heapStore; rewrite Nat.eqb_refl; reflexivity).
      rewrite Hh in Hrun.
      destruct (IsReady fetched) as [conditions [err|]] eqn:Hready.
      * apply IH in Hrun as (items & -> & -> & Hres & Hp).
        exists ({| Resource := u; Conditions := []; Error := Some err |} :: items).
        split; [rewrite <- ?app_assoc; reflexivity|].
        split; [rewrite <- ?app_assoc; reflexivity|].
        split; [rewrite fmap_cons, Hres; reflexivity|].
        eapply Processed_eval_error; eassumption.
      * apply IH in Hrun as (items & -> & -> & Hres & Hp).
        exists ({| Resource := u; Conditions := conditions; Error := None |} :: items).
        split; [rewrite <- ?app_assoc; reflexivity|].
        split; [rewrite <- ?app_assoc; reflexivity|].
        split; [rewrite fmap_cons, Hres; reflexivity|].
        eapply Processed_ok; eassumption.
Qed.

Lemma Processed_items c h us items :
  Processed c h us items ->
  Forall (fun s => match Error s with
                   | Some _ => Conditions s = []
                   | None => exists u : Unstructured, IsReady u = (Conditions s, None)
                   end) items.
Proof.
  induction 1; constructor; simpl; try assumption; try reflexivity.
  eexists. eassumption.
Qed.

Lemma succeeded_length (items : list ResourceStatus) :
  (length (succeeded items) + length (omap Error items) = length items)%nat.
Proof.
  unfold succeeded. induction items as [|s items IH]; simpl; [reflexivity|].
  change (omap Error items) with (list_omap _ _ Error items) in IH.
  destruct (Error s); simpl; lia.
Qed.

End Batch.

(** The empty batch of the package's tests: no item and no error. *)
Example TestEmptyStatus :
  (Do {| DynamicClient := exampleCluster; Out := []; Resources := [] |} exampleHeap).1
  = (Result.Build_t [], None).
Proof. reflexivity. Qed.

(** Four references, the second and the fourth unknown to the cluster:
    four items in input order, and an aggregate of the two errors. *)
Example do_partial_failure :
  (Do exampleCmd exampleHeap).1
  = (Result.Build_t
       [ {| Resource := 0%nat;
            Conditions :=
              [ {| Type_ := ConditionCompleted; Status := "True";
                   Reason := "Pod Succeeded" |};
                {| Type_ := ConditionReady; Status := "True";
                   Reason := "Phase: Succeeded, PodCompleted" |} ];
            Error := None |};
         {| Resource := 1%nat; Conditions := [];
            Error := Some (ClientError "gone not found") |};
         {| Resource := 2%nat;
            Conditions :=
              [ {| Type_ := ConditionReady; Status := "True";
                   Reason := "No Ready condition found" |} ];
            Error := None |};
         {| Resource := 3%nat; Conditions := [];
            Error := Some (ClientError "lost not found") |} ],
     Some (Aggregate [ ClientError "gone not found"; ClientError "lost not found" ])).
Proof. vm_compute. reflexivity. Qed.

(** C3: for every list of N references, whatever the client answers, [Do]
    returns N items, the i-th for the i-th reference.  Each item is built
    from its own fetch: an item whose fetch or evaluation failed carries
    that error and no condition, and the loop goes on; any other item
    carries the conditions of the fetched object and a nil error.  The
    error returned with the result is nil when no item carries an error,
    and otherwise the aggregate of exactly the items' errors in input
    order; the items without an error are N minus the number of errors. *)
Theorem do_returns_every_item {C : Type} `{Client C} (a : StatusCmd C) (h : heap) :
  let items := Result.Resources (Do a h).1.1 in
  let err := (Do a h).1.2 in
  let errs := omap Error items in
  length items = length (Resources a)
  /\ Resource <$> items = Resources a
  /\ Processed (DynamicClient a) h (Resources a) items
  /\ Forall (fun s => match Error s with
                      | Some _ => Conditions s = []
                      | None => exists u : Unstructured, IsReady u = (Conditions s, None)
                      end) items
  /\ err = match errs with
           | [] => None
           | _ :: _ => Some (Aggregate errs)
           end
  /\ length (succeeded items) = (length (Resources a) - length errs)%nat.
Proof.
  unfold Do. cbv zeta.
  destruct (doLoop (Resources a) (DynamicClient a) h [] []) as [[[c' h'] rs] errs] eqn:Hrun.
  apply doLoop_spec in Hrun as (items & -> & -> & Hres & Hp).
  simpl app. 
  assert (Hlen : length items = length (Resources a)).
  { rewrite <- Hres, length_fmap. reflexivity. }
  assert (Hitems : Result.Resources
                     (if negb (length (omap Error items) =? 0)%nat
                      then (Result.Build_t items, NewAggregate (omap Error items),
                            ({| DynamicClient := c'; Out := Out a ++ [banner];
                                Resources := Resources a |}, h'))
                      else (Result.Build_t items, None,
                            ({| DynamicClient := c'; Out := Out a ++ [banner];
                                Resources := Resources a |}, h'))).1.1 = items).
  { destruct (negb _); reflexivity. }
  rewrite Hitems.
  split; [exact Hlen|]. split; [exact Hres|]. split; [exact Hp|].
  split; [eapply Processed_items; exact Hp|]. split.
  - destruct (omap Error items); reflexivity.
  - pose proof (succeeded_length items) as Hs. lia.
Qed.

(** * Further properties of the accessors *)

Section Paths.

Import api_unstructured.

Lemma Split_nonempty s : Split s <> [].
Proof.
  destruct s as [|c s]; simpl; [discriminate|].
  destruct (Ascii.eqb c "."); [discriminate|].
  destruct (Split s); discriminate.
Qed.

Lemma Split_no_dot s : Forall (fun f => hasDot f = false) (Split s).
Proof.
  induction s as [|c s IH]; simpl.
  - apply Forall_cons_2; [reflexivity | apply Forall_nil_2].
  - destruct (Ascii.eqb c ".") eqn:Ec.
    + apply Forall_cons_2; [reflexivity | exact IH].
    + destruct (Split s) as [|h t].
      * apply Forall_cons_2; [simpl; rewrite Ec; reflexivity | apply Forall_nil_2].
      * apply Forall_cons_1 in IH as [Hh Ht].
        apply Forall_cons_2; [simpl; rewrite Ec; exact Hh | exact Ht].
Qed.

Lemma fieldsOf_no_dot path : Forall (fun f => hasDot f = false) (fieldsOf path).
Proof.
  unfold fieldsOf. pose proof (Split_no_dot path) as H.
  destruct (Split path) as [|h t]; [exact H|].
  destruct h; [|exact H]. apply Forall_cons_1 in H as [_ H]. exact H.
Qed.

Lemma Split_no_dot_id f : hasDot f = false -> Split f = [f].
Proof.
  induction f as [|c f IH]; simpl; [reflexivity|].
  intros [Hc Hf]%orb_false_iff. rewrite Hc, (IH Hf). reflexivity.
Qed.

Lemma Split_segment f s :
  hasDot f = false -> Split (f +:+ "." +:+ s) = f :: Split s.
Proof.
  induction f as [|c f IH]; simpl; [reflexivity|].
  intros [Hc Hf]%orb_false_iff. rewrite Hc, (IH Hf). reflexivity.
Qed.

Lemma Split_Join fields :
  fields <> [] -> Forall (fun f => hasDot f = false) fields ->
  Split (Join fields) = fields.
Proof.
  induction fields as [|f fs IH]; [contradiction|].
  intros _ [Hf Hfs]%Forall_cons_1. destruct fs as [|g fs].
  - simpl. apply Split_no_dot_id, Hf.
  - change (Join (f :: g :: fs)) with (f +:+ "." +:+ Join (g :: fs)).
    rewrite (Split_segment _ _ Hf), IH; [reflexivity | discriminate | exact Hfs].
Qed.

Lemma Join_cons f g fs : Join (f :: g :: fs) = f +:+ "." +:+ Join (g :: fs).
Proof. reflexivity. Qed.

Lemma Join_Split s : Join (Split s) = s.
Proof.
  induction s as [|c s IH]; [reflexivity|]. simpl Split.
  destruct (Ascii.eqb c ".") eqn:Ec.
  - apply Ascii.eqb_eq in Ec. subst c.
    pose proof (Split_nonempty s) as Hne.
    destruct (Split s) as [|h t]; [contradiction|].
    rewrite Join_cons, IH. reflexivity.
  - pose proof (Split_nonempty s) as Hne.
    destruct (Split s) as [|h t]; [contradiction|].
    destruct t as [|g t].
    + simpl in *. rewrite IH. reflexivity.
    + rewrite Join_cons.
      change (String c (h +:+ "." +:+ Join (g :: t)) = String c s).
      rewrite <- Join_cons, IH. reflexivity.
Qed.

Lemma fieldsOf_dot s : fieldsOf (String "." s) = Split s.
Proof. reflexivity. Qed.

Lemma fieldsOf_plain c s :
  c <> "."%char -> fieldsOf (String c s) = Split (String c s).
Proof.
  intros Hc. apply Ascii.eqb_neq in Hc. unfold fieldsOf. simpl. rewrite Hc.
  destruct (Split s); reflexivity.
Qed.

End Paths.

Section MoreAccessors.

Import api_unstructured.

Lemma mapSliceLoop_prefix fields cs : forall i acc rest,
  mapSliceLoop fields i ((VMap <$> cs) ++ rest) acc
  = mapSliceLoop fields (i + length cs) rest (acc ++ cs).
Proof.
  induction cs as [|c cs IH]; intros i acc rest; simpl.
  - rewrite Nat.add_0_r, app_nil_r. reflexivity.
  - rewrite IH, <- app_assoc. f_equal. lia.
Qed.

Lemma lookupPath_insert_other obj k v fields :
  hasDot k = true -> Forall (fun f => hasDot f = false) fields -> fields <> [] ->
  lookupPath (VMap (<[k:=v]> obj)) fields = lookupPath (VMap obj) fields.
Proof.
  intros Hk Hf Hne. destruct fields as [|f fs]; [contradiction|].
  apply Forall_cons_1 in Hf as [Hf _]. simpl.
  rewrite lookup_insert_ne; [reflexivity|]. intros ->. congruence.
Qed.

End MoreAccessors.

(** X1: the three outcomes of [NestedMapSlice].  A path with nothing at
    its end is reported not found, with no list.  A list of maps is
    returned as it is, in order, without error.  Anything else at the path
    is found but is an error that carries the path: a value that is not a
    list, or a list whose first element that is not a map has the index the
    error names. *)
Theorem NestedMapSlice_outcomes obj fields :
  (lookupPath (VMap obj) fields = None ->
   (NestedMapSlice obj fields).1 = (None, false))
  /\ (forall cs, lookupPath (VMap obj) fields = Some (VList (VMap <$> cs)) ->
      NestedMapSlice obj fields = (Some cs, true, None))
  /\ (forall cs v rest,
         lookupPath (VMap obj) fields = Some (VList ((VMap <$> cs) ++ v :: rest)) ->
         isMapValue v = false ->
         NestedMapSlice obj fields
         = (None, true,
            Some (AccessorError (api_unstructured.jsonPath fields) (Some (length cs)))))
  /\ (forall v, lookupPath (VMap obj) fields = Some v -> isListValue v = false ->
      NestedMapSlice obj fields
      = (None, true, Some (AccessorError (api_unstructured.jsonPath fields) None))).
Proof.
  unfold NestedMapSlice, api_unstructured.NestedFieldNoCopy.
  split; [|split; [|split]].
  - intros Hno. pose proof (walk_absent [] _ _ Hno) as Hf.
    destruct (api_unstructured.walk [] (VMap obj) fields) as [[x found] err].
    simpl in Hf. subst found. reflexivity.
  - intros cs Hl. rewrite (walk_found [] _ _ _ Hl). simpl.
    rewrite <- (app_nil_r (VMap <$> cs)), mapSliceLoop_prefix. reflexivity.
  - intros cs v rest Hl Hv. rewrite (walk_found [] _ _ _ Hl). simpl.
    rewrite mapSliceLoop_prefix. destruct v; try discriminate Hv; reflexivity.
  - intros v Hl Hv. rewrite (walk_found [] _ _ _ Hl). simpl.
    destruct v; try discriminate Hv; reflexivity.
Qed.

(** Witness for X1: the four lookups of the package's test. *)
Lemma NestedMapSlice_outcomes_witness :
  (NestedMapSlice testObj ["f1"; "f2"; "wrongname"]).1 = (None, false)
  /\ NestedMapSlice testObj ["f1"; "f2"; "ms"]
     = (Some [ {[ "f1f2ms0f1" := VInteger KInt 22 ]};
               {[ "f1f2ms1f1" := VString "index1" ]} ], true, None)
  /\ NestedMapSlice testObj ["f1"; "f2"; "msbad"]
     = (None, true, Some (AccessorError ".f1.f2.msbad" (Some 1%nat)))
  /\ NestedMapSlice testObj ["f1"; "f2"; "i64"]
     = (None, true, Some (AccessorError ".f1.f2.i64" None)).
Proof.
  split; [|split; [|split]].
  - apply (NestedMapSlice_outcomes testObj ["f1"; "f2"; "wrongname"]). reflexivity.
  - apply (proj1 (proj2 (NestedMapSlice_outcomes testObj ["f1"; "f2"; "ms"]))
             [ {[ "f1f2ms0f1" := VInteger KInt 22 ]};
               {[ "f1f2ms1f1" := VString "index1" ]} ]).
    reflexivity.
  - apply (proj1 (proj2 (proj2 (NestedMapSlice_outcomes testObj ["f1"; "f2"; "msbad"])))
             [ {[ "f1f2ms0f1" := VInteger KInt 22 ]} ] (VInteger KInt 32) []);
      reflexivity.
  - apply (proj2 (proj2 (proj2 (NestedMapSlice_outcomes testObj ["f1"; "f2"; "i64"])))
             (VInteger KInt64 64)); reflexivity.
Defined.

(** X2: [GetConditions] never reports a failure.  It returns the entries
    of [status.conditions] when that value is a list of maps, and the empty
    list in every other case: no such path, a value that is not a list, or
    a list with an element that is not a map, whose well-formed entries are
    dropped with it. *)
Theorem GetConditions_all_or_nothing obj :
  (forall cs, hasConditions obj cs -> GetConditions obj = cs)
  /\ ((forall cs, ~ hasConditions obj cs) -> GetConditions obj = [])
  /\ (forall cs v rest,
         lookupPath (VMap obj) conditionsPath = Some (VList ((VMap <$> cs) ++ v :: rest)) ->
         isMapValue v = false -> GetConditions obj = []).
Proof.
  split; [|split].
  - intros cs. apply GetConditions_has.
  - intros Hno. destruct (GetConditions_cases obj) as [E|H]; [exact E|].
    destruct (Hno _ H).
  - intros cs v rest Hl Hv. unfold GetConditions, NestedMapSlice,
      api_unstructured.NestedFieldNoCopy. fold conditionsPath.
    rewrite (walk_found [] _ _ _ Hl). simpl.
    rewrite mapSliceLoop_prefix. destruct v; try discriminate Hv; reflexivity.
Qed.

(** Witness for X2: one entry of type Ready followed by a number. *)
Lemma GetConditions_all_or_nothing_witness :
  GetConditions
    {[ "status" := obj_of [("conditions",
                            VList [ VMap (entry "Ready" "True" "ok");
                                    VInteger KInt 32 ])] ]}
  = [].
Proof.
  apply (proj2 (proj2 (GetConditions_all_or_nothing _))
           [entry "Ready" "True" "ok"] (VInteger KInt 32) []); reflexivity.
Defined.

(** X3: the leading dot of a field path is optional: a path that starts
    with a character other than the dot is read the same with a dot put in
    front of it, by both getters. *)
Theorem leading_dot_optional obj c path (ds : string) (di : Z) :
  c <> "."%char ->
  GetStringField obj (String "." (String c path)) ds
  = GetStringField obj (String c path) ds
  /\ GetIntField obj (String "." (String c path)) di
     = GetIntField obj (String c path) di.
Proof.
  intros Hc.
  rewrite !GetStringField_stringAt, !GetIntField_intAt.
  rewrite fieldsOf_dot, (fieldsOf_plain _ _ Hc). split; reflexivity.
Qed.

(** Witness for X3: the paths the evaluators use for a condition's type. *)
Lemma leading_dot_optional_witness :
  GetStringField (entry "Ready" "True" "ok") ".type" ""
  = GetStringField (entry "Ready" "True" "ok") "type" ""
  /\ GetIntField (entry "Ready" "True" "ok") ".type" 0
     = GetIntField (entry "Ready" "True" "ok") "type" 0.
Proof.
  apply (leading_dot_optional (entry "Ready" "True" "ok") "t"%char "ype" "" 0).
  discriminate.
Defined.

(** X4: a key that contains a dot cannot be reached by any path, because
    paths are cut at every dot: storing a value under such a key of the
    top-level map changes the result of neither getter, for any path and
    default. *)
Theorem dotted_key_is_never_read obj k v path (ds : string) (di : Z) :
  hasDot k = true ->
  GetStringField (<[k:=v]> obj) path ds = GetStringField obj path ds
  /\ GetIntField (<[k:=v]> obj) path di = GetIntField obj path di.
Proof.
  intros Hk. rewrite !GetStringField_stringAt, !GetIntField_intAt.
  unfold stringAt, intAt.
  destruct (fieldsOf path) as [|f fs] eqn:E.
  - split; reflexivity.
  - rewrite (lookupPath_insert_other obj k v (f :: fs) Hk);
      [split; reflexivity | rewrite <- E; apply fieldsOf_no_dot | discriminate].
Qed.

(** Witness for X4: a label-like key, read with the key itself as path. *)
Lemma dotted_key_is_never_read_witness :
  GetStringField (<["app.kubernetes.io/name" := VString "web"]> ∅)
                 "app.kubernetes.io/name" "none"
  = GetStringField ∅ "app.kubernetes.io/name" "none"
  /\ GetIntField (<["app.kubernetes.io/name" := VString "web"]> ∅)
                 "app.kubernetes.io/name" 0
     = GetIntField ∅ "app.kubernetes.io/name" 0.
Proof.
  apply (dotted_key_is_never_read ∅ "app.kubernetes.io/name" (VString "web")
           "app.kubernetes.io/name" "none" 0).
  reflexivity.
Defined.

(** X5: [jsonPath] and the path parsing of the getters are inverse to each
    other.  For a non-empty list of segments without dots, the getters
    applied to [jsonPath fields] read the value at exactly those segments;
    and for every string [s], [jsonPath] of the segments of ["." ++ s] is
    ["." ++ s] again. *)
Theorem jsonPath_round_trip :
  (forall fields, fields <> [] -> Forall (fun f => hasDot f = false) fields ->
     fieldsOf (api_unstructured.jsonPath fields) = fields
     /\ forall obj (ds : string) (di : Z),
         GetStringField obj (api_unstructured.jsonPath fields) ds
         = default ds (stringAt obj fields)
         /\ GetIntField obj (api_unstructured.jsonPath fields) di
            = default di (intAt obj fields))
  /\ (forall s, api_unstructured.jsonPath (fieldsOf (String "." s)) = String "." s).
Proof.
  split.
  - intros fields Hne Hf.
    assert (E : fieldsOf (api_unstructured.jsonPath fields) = fields).
    { change (fieldsOf (String "." (api_unstructured.Join fields)) = fields).
      rewrite fieldsOf_dot. apply Split_Join; assumption. }
    split; [exact E|]. intros obj ds di.
    rewrite GetStringField_stringAt, GetIntField_intAt, E. split; reflexivity.
  - intros s. rewrite fieldsOf_dot.
    change (String "." (api_unstructured.Join (Split s)) = String "." s).
    rewrite Join_Split. reflexivity.
Qed.

(** Witness for X5: the path of the conditions list. *)
Lemma jsonPath_round_trip_witness :
  fieldsOf (api_unstructured.jsonPath ["status"; "conditions"])
  = ["status"; "conditions"].
Proof.
  apply (proj1 jsonPath_round_trip ["status"; "conditions"]).
  - discriminate.
  - repeat constructor.
Defined.

(** * Further properties of the condition model and the dispatcher *)

(** X6: [GetCondition] finds the first condition of the given type: it
    returns nil exactly when no condition has that type, and otherwise the
    condition before which no other has it. *)
Theorem GetCondition_first_of_type cs ct :
  (GetCondition cs ct = None <-> ct ∉ (Type_ <$> cs))
  /\ (forall c, GetCondition cs ct = Some c <->
                exists pre post, cs = pre ++ c :: post /\ Type_ c = ct
                                 /\ Forall (fun c' => Type_ c' <> ct) pre).
Proof.
  induction cs as [|c0 cs [IHn IHs]].
  - simpl. split.
    + split; [intros _ Hin; inversion Hin | reflexivity].
    + intros c. split; [discriminate|].
      intros ([|? ?] & post & Heq & _); discriminate Heq.
  - rewrite fmap_cons. cbn [GetCondition].
    destruct (Type_ c0 =? ct)%string eqn:E.
    + apply String.eqb_eq in E. split.
      * split; [discriminate|]. intros Hno. destruct Hno. rewrite E. left.
      * intros c. split.
        -- intros [= <-]. exists [], cs. split; [reflexivity|].
           split; [exact E | apply Forall_nil_2].
        -- intros ([|c1 pre] & post & Heq & Ht & Hpre).
           ++ injection Heq as ->. reflexivity.
           ++ injection Heq as -> _. apply Forall_cons_1 in Hpre as [Hc1 _].
              contradiction.
    + apply String.eqb_neq in E. split.
      * rewrite IHn, not_elem_of_cons. split; [intros Hn; split; [congruence|exact Hn]|].
        intros [_ Hn]. exact Hn.
      * intros c. rewrite IHs. split.
        -- intros (pre & post & -> & Ht & Hpre). exists (c0 :: pre), post.
           split; [reflexivity|]. split; [exact Ht|].
           apply Forall_cons_2; assumption.
        -- intros ([|c1 pre] & post & Heq & Ht & Hpre).
           ++ injection Heq as <-. contradiction.
           ++ injection Heq as <- ->. apply Forall_cons_1 in Hpre as [_ Hpre].
              exists pre, post. auto.
Qed.

Section Registry.

Ltac registry_keys H :=
  unfold list_to_map in H; cbn [fold_right fst snd] in H;
  repeat (apply lookup_insert_Some in H as [[? H]|[_ H]]);
  try (rewrite lookup_empty in H; discriminate H).

Lemma lookupRegistry_Some g k fn :
  lookupRegistry g k = Some fn <-> (g, k, fn) ∈ registry.
Proof.
  split.
  - unfold lookupRegistry. destruct (legacyTypes !! g) as [kinds|] eqn:Eg; [|discriminate].
    intros Ek. unfold legacyTypes in Eg.
    registry_keys Eg; subst kinds g; registry_keys Ek; subst fn k;
      apply list_elem_of_In; simpl; auto 20.
  - intros Hin. apply list_elem_of_In in Hin. simpl in Hin.
    repeat (destruct Hin as [Heq|Hin]; [injection Heq as <- <- <-; reflexivity|]).
    contradiction.
Qed.

Lemma IsReady_lookup u :
  IsReady u
  = match lookupRegistry (schema.Group (GroupVersionKind u))
                         (schema.Kind (GroupVersionKind u)) with
    | Some fn => fn u
    | None => readyConditionReader u
    end.
Proof.
  unfold IsReady, GetLegacyReadyFn, GetGenericReadyFn, lookupRegistry. cbv zeta.
  destruct (legacyTypes !! _) as [kinds|]; [|reflexivity].
  destruct (kinds !! _); reflexivity.
Qed.

End Registry.

(** X7: dispatch looks at the group and the kind only, never at the
    version.  An object whose group and kind are one of the ten registered
    pairs is evaluated by that pair's evaluator; every other object, one of
    a registered kind in another group included, goes to the generic
    evaluator. *)
Theorem dispatch_by_group_and_kind u :
  (forall fn, (schema.Group (GroupVersionKind u), schema.Kind (GroupVersionKind u), fn)
              ∈ registry ->
              IsReady u = fn u)
  /\ ((forall fn, (schema.Group (GroupVersionKind u), schema.Kind (GroupVersionKind u), fn)
                  ∉ registry) ->
      IsReady u = readyConditionReader u).
Proof.
  split.
  - intros fn Hin. apply lookupRegistry_Some in Hin.
    rewrite IsReady_lookup, Hin. reflexivity.
  - intros Hno. rewrite IsReady_lookup.
    destruct (lookupRegistry _ _) as [fn|] eqn:E; [|reflexivity].
    apply lookupRegistry_Some in E. destruct (Hno _ E).
Qed.

(** Witness for X7: a Deployment of another API version of the group
    [apps] is still evaluated as a Deployment. *)
Lemma dispatch_by_group_and_kind_witness :
  schema.Version (GroupVersionKind deploymentBeta) = "v1beta2"
  /\ IsReady deploymentBeta = deploymentConditions deploymentBeta.
Proof.
  split; [reflexivity|].
  apply (proj1 (dispatch_by_group_and_kind deploymentBeta)).
  apply list_elem_of_In. simpl. auto 20.
Defined.

Section AlwaysReady.

Lemma singleReady_reported r : singleReady r -> readyReported r.
Proof.
  intros (st & reason & -> & Hst). split; [reflexivity|].
  eexists. split; [reflexivity | exact Hst].
Qed.

Lemma GetCondition_skip pre c ct :
  Forall (fun c' => Type_ c' <> ct) pre -> Type_ c = ct ->
  GetCondition (pre ++ [c]) ct = Some c.
Proof.
  intros Hpre Hc. induction Hpre as [|c' pre Hc' _ IH]; simpl.
  - apply String.eqb_eq in Hc. rewrite Hc. reflexivity.
  - apply String.eqb_neq in Hc'. rewrite Hc'. exact IH.
Qed.

Lemma pod_reported u : readyReported (podConditions u).
Proof.
  pose proof (pod_statusOK u) as Hok. revert Hok.
  rewrite podConditions_spec. cbv zeta. cbn [fst snd]. intros Hok.
  split; [reflexivity|]. eexists. split.
  - apply GetCondition_skip; [|reflexivity].
    apply Forall_forall. intros c Hc. apply elem_of_replicate in Hc as [-> _].
    apply podTerminal_type.
  - apply Forall_app in Hok as [_ Hok]. apply Forall_cons_1 in Hok as [Hok _].
    exact Hok.
Qed.

Lemma job_reported u : readyReported (jobConditions u).
Proof.
  destruct (job_cases u) as [H|[(m & ->)|(m & ->)]].
  - apply singleReady_reported, H.
  - split; [reflexivity|]. eexists. split; [reflexivity | left; reflexivity].
  - split; [reflexivity|]. eexists. split; [reflexivity | left; reflexivity].
Qed.

Lemma generic_reported u : readyReported (readyConditionReader u).
Proof.
  destruct (generic_cases u) as [->| ->].
  - split; [reflexivity|]. eexists. split; [reflexivity | right; reflexivity].
  - split; [reflexivity|]. cbn [fst].
    destruct (List.filter _ _) as [|c rs].
    + eexists. split; [reflexivity | left; reflexivity].
    + exists (mirrorReady c). split; [reflexivity|].
      unfold statusOK, mirrorReady. simpl. destruct (_ =? _)%string; auto.
Qed.

Lemma evaluators_reported u :
  Forall (fun fn : GetConditionsFn => readyReported (fn u)) evaluators.
Proof.
  unfold evaluators, dedicatedEvaluators. repeat apply Forall_app_2.
  - eapply Forall_impl; [apply readyOnly_single|].
    intros fn. apply singleReady_reported.
  - repeat apply Forall_cons_2; try apply Forall_nil_2.
    + apply pod_reported.
    + apply job_reported.
  - apply Forall_cons_2; [apply generic_reported | apply Forall_nil_2].
Qed.

Lemma readiness_reported_IsReady u : readyReported (IsReady u).
Proof.
  destruct (IsReady_evaluators u) as (fn & Hin & ->).
  pose proof (evaluators_reported u) as Hall.
  rewrite Forall_forall in Hall. apply Hall, Hin.
Qed.

End AlwaysReady.

(** X8: no evaluator fails and none leaves readiness out.  For every
    snapshot, each evaluator, and so the dispatcher [IsReady], returns a nil
    error and a list in which [GetCondition] finds a Ready condition whose
    status is "True" or "False". *)
Theorem readiness_always_reported u :
  Forall (fun fn : GetConditionsFn => readyReported (fn u)) evaluators
  /\ readyReported (IsReady u).
Proof.
  split; [apply evaluators_reported|].
  destruct (IsReady_evaluators u) as (fn & Hin & ->).
  pose proof (evaluators_reported u) as Hall.
  rewrite Forall_forall in Hall. apply Hall, Hin.
Qed.

(** * Decision tables of the workload evaluators *)

Ltac bool_facts :=
  repeat match goal with
         | H : negb _ = true |- _ => apply negb_true_iff in H
         | H : negb _ = false |- _ => apply negb_false_iff in H
         | H : (_ && _)%bool = true |- _ => apply andb_true_iff in H as [? ?]
         | H : (_ =? _)%string = true |- _ => apply String.eqb_eq in H
         | H : (_ =? _)%string = false |- _ => apply String.eqb_neq in H
         | H : (_ =? _)%Z = true |- _ => apply Z.eqb_eq in H
         | H : (_ =? _)%Z = false |- _ => apply Z.eqb_neq in H
         | H : (_ >? _)%Z = true |- _ => apply Z.gtb_lt in H
         | H : (_ >? _)%Z = false |- _ => rewrite Z.gtb_ltb in H; apply Z.ltb_ge in H
         | H : (_ <? _)%Z = true |- _ => apply Z.ltb_lt in H
         | H : (_ <? _)%Z = false |- _ => apply Z.ltb_ge in H
         end.

Ltac split_ifs_eqn :=
  repeat match goal with
         | |- context [if ?b then _ else _] => destruct b eqn:?
         end.

Ltac not_ready :=
  let H := fresh in
  intros [? H]; cbv [setReason setStatus NewFalseCondition Type_ Status Reason] in H;
  discriminate H.

Ltac is_ready :=
  eexists; cbv [setReason setStatus NewFalseCondition Type_ Status Reason];
  reflexivity.

(** X9: the StatefulSet evaluator reports Ready=True exactly when the
    strategy is [ondelete], or the generation was observed, at least
    [spec.replicas] (default 1) replicas exist and are ready, and either a
    partition is set (any value but -1) and at least [spec.replicas -
    partition] replicas are updated, or no partition is set, at least
    [spec.replicas] replicas are current and the current revision is the
    updated one.  With a partition, current replicas and revisions are not
    looked at. *)
Theorem sts_ready_iff u :
  let obj := Object u in
  let spec := GetIntField obj ".spec.replicas" 1 in
  let partition := GetIntField obj ".spec.updateStrategy.rollingUpdate.partition" (-1) in
  reportsReady (stsConditions u)
  <-> GetStringField obj ".spec.updateStrategy.type" "" = "ondelete"
      \/ (GetIntField obj ".status.observedGeneration" (-1)
          = GetIntField obj ".metadata.generation" (-1)
          /\ spec <= GetIntField obj ".status.replicas" 0
          /\ spec <= GetIntField obj ".status.readyReplicas" 0
          /\ ((partition <> -1
               /\ GoInt.sub spec partition <= GetIntField obj ".status.updatedReplicas" 0)
              \/ (partition = -1
                  /\ spec <= GetIntField obj ".status.currentReplicas" 0
                  /\ GetStringField obj ".status.currentRevision" ""
                     = GetStringField obj ".status.updatedRevision" ""))).
Proof.
  intros obj spec partition. unfold stsConditions, UnstructuredContent, reportsReady.
  cbv zeta. fold obj. fold spec partition.
  split_ifs_eqn; bool_facts;
    (split; [first [not_ready | intros _] | intros Hrhs; first [is_ready | exfalso]]);
    try (left; assumption); try (right; intuition lia);
    try (destruct Hrhs as [Hrhs|Hrhs]; [congruence|]; intuition (lia || congruence)).
Qed.

Section WorkloadScans.

Lemma deploymentScan_spec rc cs : forall p a,
  deploymentScan rc cs p a
  = if existsb isDeadlineExceeded cs
    then inl (setReason "Progress Deadline exceeded" rc)
    else inr (p || existsb isNewReplicaSetAvailable cs,
              a || existsb isAvailableTrue cs).
Proof.
  induction cs as [|c cs IH]; intros p a; simpl.
  - rewrite !orb_false_r. reflexivity.
  - entry_fields. unfold isDeadlineExceeded at 1, isNewReplicaSetAvailable at 1,
      isAvailableTrue at 1.
    destruct (strField c "type" =? "Progressing")%string eqn:Et.
    + apply String.eqb_eq in Et. rewrite Et. simpl.
      destruct (strField c "reason" =? "ProgressDeadlineExceeded")%string eqn:Er;
        [reflexivity|]. simpl.
      destruct (strField c "status" =? "True")%string; simpl.
      * destruct (strField c "reason" =? "NewReplicaSetAvailable")%string; simpl;
          rewrite IH; destruct (existsb isDeadlineExceeded cs); try reflexivity;
          rewrite ?orb_true_r; reflexivity.
      * rewrite IH. reflexivity.
    + simpl. destruct (strField c "type" =? "Available")%string; simpl.
      * destruct (strField c "status" =? "True")%string; simpl; rewrite IH;
          destruct (existsb isDeadlineExceeded cs); try reflexivity;
          rewrite ?orb_true_r; reflexivity.
      * rewrite IH. reflexivity.
Qed.

Lemma replicasetScan_spec cs : replicasetScan cs = existsb isReplicaFailure cs.
Proof.
  induction cs as [|c cs IH]; simpl; [reflexivity|].
  entry_fields. unfold isReplicaFailure at 1.
  destruct (strField c "type" =? "ReplicaFailure")%string; simpl; [|exact IH].
  destruct (strField c "status" =? "True")%string; simpl; [reflexivity | exact IH].
Qed.

End WorkloadScans.

(** X10: the Deployment evaluator reports Ready=True exactly when the
    generation was observed, no entry read from [status.conditions] is a
    Progressing entry with reason ProgressDeadlineExceeded, the five
    replica comparisons hold, some entry is Progressing/True with reason
    NewReplicaSetAvailable and some entry is Available/True.  A ready
    Deployment therefore has at least [spec.replicas] available
    replicas. *)
Theorem deployment_ready_iff u :
  let obj := Object u in
  let cs := GetConditions obj in
  let spec := GetIntField obj ".spec.replicas" 1 in
  let replicas := GetIntField obj ".status.replicas" 0 in
  let updated := GetIntField obj ".status.updatedReplicas" 0 in
  let ready := GetIntField obj ".status.readyReplicas" 0 in
  let available := GetIntField obj ".status.availableReplicas" 0 in
  (reportsReady (deploymentConditions u)
   <-> GetIntField obj ".status.observedGeneration" (-1)
       = GetIntField obj ".metadata.generation" (-1)
       /\ existsb isDeadlineExceeded cs = false
       /\ spec <= updated /\ replicas <= updated /\ updated <= available
       /\ spec <= ready /\ spec <= replicas
       /\ existsb isNewReplicaSetAvailable cs = true
       /\ existsb isAvailableTrue cs = true)
  /\ (reportsReady (deploymentConditions u) -> spec <= available).
Proof.
  intros obj cs spec replicas updated ready available.
  assert (Hiff : reportsReady (deploymentConditions u)
   <-> GetIntField obj ".status.observedGeneration" (-1)
       = GetIntField obj ".metadata.generation" (-1)
       /\ existsb isDeadlineExceeded cs = false
       /\ spec <= updated /\ replicas <= updated /\ updated <= available
       /\ spec <= ready /\ spec <= replicas
       /\ existsb isNewReplicaSetAvailable cs = true
       /\ existsb isAvailableTrue cs = true).
  { unfold deploymentConditions, UnstructuredContent, reportsReady.
    cbv zeta. fold obj. fold cs spec replicas updated ready available.
    rewrite deploymentScan_spec. simpl orb.
    destruct (negb _) eqn:Hg; bool_facts.
    { split; [not_ready | intros [Hc _]; contradiction]. }
    destruct (existsb isDeadlineExceeded cs).
    { split; [not_ready | intros (_ & Hc & _); discriminate Hc]. }
    split_ifs_eqn; bool_facts;
      (split; [first [not_ready | intros _] | intros Hrhs; first [is_ready | exfalso]]);
      try (intuition (lia || congruence)). }
  split; [exact Hiff|].
  intros Hr. apply Hiff in Hr. lia.
Qed.

(** X11: the ReplicaSet evaluator reports Ready=True exactly when the
    generation was observed, no entry read from [status.conditions] is
    ReplicaFailure with status True, the four counts [spec.replicas]
    (default 1), labelled, available and ready replicas are not all zero,
    and labelled, available and ready replicas each reach [spec.replicas].
    A ReplicaSet scaled to zero with nothing running is reported not
    ready. *)
Theorem replicaset_ready_iff u :
  let obj := Object u in
  let spec := GetIntField obj ".spec.replicas" 1 in
  let labelled := GetIntField obj ".status.labelledReplicas" 0 in
  let available := GetIntField obj ".status.availableReplicas" 0 in
  let ready := GetIntField obj ".status.readyReplicas" 0 in
  reportsReady (replicasetConditions u)
  <-> GetIntField obj ".status.observedGeneration" (-1)
      = GetIntField obj ".metadata.generation" (-1)
      /\ existsb isReplicaFailure (GetConditions obj) = false
      /\ ~ (spec = 0 /\ labelled = 0 /\ available = 0 /\ ready = 0)
      /\ spec <= labelled /\ spec <= available /\ spec <= ready.
Proof.
  intros obj spec labelled available ready.
  unfold replicasetConditions, UnstructuredContent, reportsReady.
  cbv zeta. fold obj. fold spec labelled available ready.
  rewrite replicasetScan_spec.
  destruct (negb _) eqn:Hg; bool_facts.
  { split; [not_ready | intros [Hc _]; contradiction]. }
  destruct (existsb isReplicaFailure (GetConditions obj)).
  { split; [not_ready | intros (_ & Hc & _); discriminate Hc]. }
  destruct ((spec =? 0)%Z && (labelled =? 0)%Z && (available =? 0)%Z && (ready =? 0)%Z)
    eqn:Hz.
  { bool_facts. split; [not_ready | intros (_ & _ & Hc & _); destruct Hc; auto]. }
  assert (Hnz : ~ (spec = 0 /\ labelled = 0 /\ available = 0 /\ ready = 0)).
  { intros (-> & -> & -> & ->). discriminate Hz. }
  split_ifs_eqn; bool_facts;
    (split; [first [not_ready | intros _] | intros Hrhs; first [is_ready | exfalso]]);
    try (intuition (lia || congruence)).
Qed.

(** X12: the DaemonSet evaluator reports Ready=True exactly when the
    generation was observed, [status.desiredNumberScheduled] is present and
    not -1, and the current, updated, available and ready numbers each
    reach it.  A desired number of -1 is read as a missing field. *)
Theorem daemonset_ready_iff u :
  let obj := Object u in
  let desired := GetIntField obj ".status.desiredNumberScheduled" (-1) in
  (reportsReady (daemonsetConditions u)
   <-> GetIntField obj ".status.observedGeneration" (-1)
       = GetIntField obj ".metadata.generation" (-1)
       /\ desired <> -1
       /\ desired <= GetIntField obj ".status.currentNumberScheduled" 0
       /\ desired <= GetIntField obj ".status.updatedNumberScheduled" 0
       /\ desired <= GetIntField obj ".status.numberAvailable" 0
       /\ desired <= GetIntField obj ".status.numberReady" 0)
  /\ (GetIntField obj ".status.observedGeneration" (-1)
      = GetIntField obj ".metadata.generation" (-1) ->
      desired = -1 ->
      reportsNotReady "Missing .status.desiredNumberScheduled" (daemonsetConditions u)).
Proof.
  intros obj desired. split.
  - unfold daemonsetConditions, UnstructuredContent, reportsReady.
    cbv zeta. fold obj. fold desired.
    split_ifs_eqn; bool_facts;
      (split; [first [not_ready | intros _] | intros Hrhs; first [is_ready | exfalso]]);
      try (intuition (lia || congruence)).
  - intros Hg Hd. unfold daemonsetConditions, UnstructuredContent, reportsNotReady.
    cbv zeta. fold obj. fold desired. rewrite Hg, Z.eqb_refl, Hd. reflexivity.
Qed.

(** Witness for X12: a DaemonSet that reports -1 nodes desired. *)
Lemma daemonset_ready_iff_witness :
  reportsNotReady "Missing .status.desiredNumberScheduled"
    (daemonsetConditions
       {| Object := {[ "status" :=
                         obj_of [("desiredNumberScheduled", VInteger KInt64 (-1));
                                 ("numberReady", VInteger KInt64 3)] ]} |}).
Proof.
  apply (proj2 (daemonset_ready_iff _)); reflexivity.
Defined.

(** * Objects without a status *)

Section NoStatus.

Variable obj : object.
Hypothesis Hno : obj !! "status" = None.

Lemma no_status_int path d :
  head (fieldsOf path) = Some "status" -> GetIntField obj path d = d.
Proof.
  intros Hp. rewrite GetIntField_intAt. unfold intAt.
  destruct (fieldsOf path) as [|f fs]; [discriminate|].
  injection Hp as ->. simpl. rewrite Hno. reflexivity.
Qed.

Lemma no_status_string path d :
  head (fieldsOf path) = Some "status" -> GetStringField obj path d = d.
Proof.
  intros Hp. rewrite GetStringField_stringAt. unfold stringAt.
  destruct (fieldsOf path) as [|f fs]; [discriminate|].
  injection Hp as ->. simpl. rewrite Hno. reflexivity.
Qed.

Lemma no_status_conditions : GetConditions obj = [].
Proof.
  destruct (GetConditions_cases obj) as [E|H]; [exact E|].
  unfold hasConditions, conditionsPath in H. simpl in H. rewrite Hno in H.
  discriminate H.
Qed.

End NoStatus.

Ltac no_status H :=
  repeat match goal with
         | |- context [GetIntField ?o ?p ?d] =>
             rewrite (no_status_int o H p d eq_refl)
         | |- context [GetStringField ?o ?p ?d] =>
             rewrite (no_status_string o H p d eq_refl)
         end;
  rewrite ?(no_status_conditions _ H).

(** X13: an object that has no [status] yet is not ready for any
    workload-like kind.  Without a [status] key the Deployment, DaemonSet,
    PodDisruptionBudget, PersistentVolumeClaim, Pod and Job evaluators
    return exactly one condition, Ready=False; so does the ReplicaSet
    evaluator when [spec.replicas] is not negative, and the StatefulSet
    evaluator when the strategy is not [ondelete] and [spec.replicas]
    (default 1) is positive. *)
Theorem no_status_not_ready u :
  Object u !! "status" = None ->
  (exists reason, reportsNotReady reason (deploymentConditions u))
  /\ (exists reason, reportsNotReady reason (daemonsetConditions u))
  /\ reportsNotReady "Missing .status.desiredHealthy" (pdbConditions u)
  /\ reportsNotReady "PVC is not Bound. phase: unknown" (pvcConditions u)
  /\ reportsNotReady "Phase: unknown" (podConditions u)
  /\ reportsNotReady "Job not started" (jobConditions u)
  /\ (0 <= GetIntField (Object u) ".spec.replicas" 1 ->
      exists reason, reportsNotReady reason (replicasetConditions u))
  /\ (GetStringField (Object u) ".spec.updateStrategy.type" "" <> "ondelete" ->
      0 < GetIntField (Object u) ".spec.replicas" 1 ->
      exists reason, reportsNotReady reason (stsConditions u)).
Proof.
  intros Hno. unfold reportsNotReady.
  split; [|split; [|split; [|split; [|split; [|split; [|split]]]]]].
  - unfold deploymentConditions, UnstructuredContent. cbv zeta. no_status Hno.
    simpl deploymentScan. cbv iota beta. simpl negb at 2 3.
    split_ifs; eexists; reflexivity.
  - unfold daemonsetConditions, UnstructuredContent. cbv zeta. no_status Hno.
    change (-1 =? -1)%Z with true. cbv iota.
    split_ifs; eexists; reflexivity.
  - unfold pdbConditions, UnstructuredContent. cbv zeta. no_status Hno. reflexivity.
  - unfold pvcConditions, UnstructuredContent. cbv zeta. no_status Hno. reflexivity.
  - unfold podConditions, UnstructuredContent. cbv zeta. no_status Hno. reflexivity.
  - unfold jobConditions, UnstructuredContent. cbv zeta. no_status Hno. reflexivity.
  - intros Hspec. unfold replicasetConditions, UnstructuredContent. cbv zeta.
    no_status Hno. simpl replicasetScan. cbv iota.
    change (0 =? 0)%Z with true. rewrite !andb_true_r.
    destruct (negb _); [eexists; reflexivity|].
    destruct (_ =? 0)%Z eqn:E0; [eexists; reflexivity|]. apply Z.eqb_neq in E0.
    destruct (_ >? 0)%Z eqn:E1; [eexists; reflexivity|].
    rewrite Z.gtb_ltb in E1. apply Z.ltb_ge in E1. lia.
  - intros Hs Hspec. unfold stsConditions, UnstructuredContent. cbv zeta.
    no_status Hno. apply String.eqb_neq in Hs. rewrite Hs.
    destruct (negb _); [eexists; reflexivity|].
    destruct (_ >? 0)%Z eqn:E1; [eexists; reflexivity|].
    rewrite Z.gtb_ltb in E1. apply Z.ltb_ge in E1. lia.
Qed.

(** Witness for X13: the references of the tests that carry only names. *)
Lemma no_status_not_ready_witness :
  reportsNotReady "Phase: unknown" (podConditions podNoStatus)
  /\ reportsNotReady "Job not started" (jobConditions jobNoStatus)
  /\ exists reason, reportsNotReady reason (stsConditions podNoStatus).
Proof.
  split; [|split].
  - apply (no_status_not_ready podNoStatus). reflexivity.
  - apply (no_status_not_ready jobNoStatus). reflexivity.
  - apply (no_status_not_ready podNoStatus).
    + reflexivity.
    + vm_compute. discriminate.
    + vm_compute. reflexivity.
Defined.

(** * The remaining dedicated evaluators *)

(** X14: the three evaluators that read one or two fields.  A
    PersistentVolumeClaim is ready exactly when [status.phase] is the string
    "Bound", and otherwise the reason echoes the phase read.  A
    PodDisruptionBudget is ready exactly when [status.desiredHealthy] is
    present, not -1 and at most [status.currentHealthy].  A Service is
    not ready exactly when its type is LoadBalancer and [spec.clusterIP] is
    absent or empty; the load balancer's own status is not looked at. *)
Theorem simple_evaluators_ready_iff u :
  let obj := Object u in
  let phase := GetStringField obj ".status.phase" "unknown" in
  let desired := GetIntField obj ".status.desiredHealthy" (-1) in
  (reportsReady (pvcConditions u) <-> phase = "Bound")
  /\ (phase <> "Bound" ->
      reportsNotReady ("PVC is not Bound. phase: " +:+ phase) (pvcConditions u))
  /\ (reportsReady (pdbConditions u)
      <-> desired <> -1 /\ desired <= GetIntField obj ".status.currentHealthy" 0)
  /\ (reportsReady (serviceConditions u)
      <-> ~ (GetStringField obj ".spec.type" "ClusterIP" = "LoadBalancer"
             /\ GetStringField obj ".spec.clusterIP" "" = "")).
Proof.
  intros obj phase desired. split; [|split; [|split]].
  - unfold pvcConditions, UnstructuredContent, reportsReady. cbv zeta.
    fold obj. fold phase.
    destruct (negb _) eqn:E; bool_facts;
      (split; [first [not_ready | intros _; assumption]
              | intros Hrhs; first [is_ready | contradiction]]).
  - intros Hp. unfold pvcConditions, UnstructuredContent, reportsNotReady. cbv zeta.
    fold obj. fold phase. apply String.eqb_neq in Hp. rewrite Hp. reflexivity.
  - unfold pdbConditions, UnstructuredContent, reportsReady. cbv zeta.
    fold obj. fold desired.
    split_ifs_eqn; bool_facts;
      (split; [first [not_ready | intros _] | intros Hrhs; first [is_ready | exfalso]]);
      try (intuition (lia || congruence)).
  - unfold serviceConditions, UnstructuredContent, reportsReady, Get, False_, NewCondition.
    cbv zeta. fold obj.
    split_ifs_eqn; bool_facts;
      (split; [first [not_ready | intros _] | intros Hrhs; first [is_ready | exfalso]]);
      try (intuition (lia || congruence)).
Qed.

(** Witness for X14: a claim that is still pending. *)
Lemma simple_evaluators_witness :
  reportsNotReady "PVC is not Bound. phase: Pending"
    (pvcConditions {| Object := {[ "status" := obj_of [("phase", VString "Pending")] ]} |}).
Proof.
  pose proof (proj1 (proj2 (simple_evaluators_ready_iff
    {| Object := {[ "status" := obj_of [("phase", VString "Pending")] ]} |}))) as H.
  cbv zeta in H. apply H. vm_compute. discriminate.
Defined.

(** * Pod and generic evaluator: the whole result *)

Section PodShape.

Lemma existsb_filter_length {A} (p : A -> bool) l :
  existsb p l = true <-> (0 < length (List.filter p l))%nat.
Proof.
  induction l as [|x l IH]; simpl; [split; [discriminate | lia]|].
  destruct (p x); simpl; [split; [lia | reflexivity] | exact IH].
Qed.

Lemma append_nil_r s : s +:+ "" = s.
Proof.
  induction s as [|a s IH]; [reflexivity|].
  change (String a (s +:+ "") = String a s). rewrite IH. reflexivity.
Qed.

Lemma elem_of_replicate_pos {A} (x y : A) k :
  y ∈ replicate k x <-> y = x /\ (0 < k)%nat.
Proof.
  rewrite elem_of_replicate. split; intros [? ?]; split; auto; lia.
Qed.

End PodShape.

(** X15: a Pod in whose [status.conditions] no entry has type Ready (no
    list at all, for one) gets exactly one condition, Ready=False with
    reason "Phase: <phase>", the phase being "unknown" when
    [status.phase] is absent. *)
Theorem pod_without_ready_entry u :
  (forall c, conditionEntry (Object u) c -> strField c "type" <> "Ready") ->
  reportsNotReady ("Phase: " +:+ GetStringField (Object u) ".status.phase" "unknown")
                  (podConditions u).
Proof.
  intros Hno.
  assert (Hall : Forall (fun c => isReadyEntry c = false) (GetConditions (Object u))).
  { apply Forall_forall. intros c Hin. apply String.eqb_neq, Hno.
    apply GetConditions_entry, Hin. }
  unfold reportsNotReady. rewrite podConditions_spec. cbv zeta.
  rewrite (podReadyAfter_none _ _ Hall).
  assert (Hc : List.filter isCompletedEntry (GetConditions (Object u)) = []).
  { apply filter_none. eapply Forall_impl; [exact Hall|].
    intros c Hc. unfold isCompletedEntry. rewrite Hc. reflexivity. }
  rewrite Hc. reflexivity.
Qed.

(** Witness for X15: a running Pod that only reports being scheduled. *)
Lemma pod_without_ready_entry_witness :
  reportsNotReady "Phase: Running"
    (podConditions
       {| Object := {[ "status" :=
                         obj_of [("phase", VString "Running");
                                 ("conditions",
                                  VList [VMap (entry "PodScheduled" "True" "")])] ]} |}).
Proof.
  assert (Hno : forall c,
             conditionEntry
               {[ "status" :=
                    obj_of [("phase", VString "Running");
                            ("conditions",
                             VList [VMap (entry "PodScheduled" "True" "")])] ]} c ->
             strField c "type" <> "Ready").
  { intros c (l & Hl & Hin). vm_compute in Hl. injection Hl as <-.
    apply list_elem_of_singleton in Hin. injection Hin as ->.
    vm_compute. discriminate. }
  exact (pod_without_ready_entry
           {| Object := {[ "status" :=
                             obj_of [("phase", VString "Running");
                                     ("conditions",
                                      VList [VMap (entry "PodScheduled" "True" "")])] ]} |}
           Hno).
Defined.

(** X16: the layout of every Pod result.  The Ready condition is the last
    element and the only one of type Ready, and its reason starts with
    "Phase: <phase>".  A Completed condition is present exactly when the
    phase is Succeeded and some entry read has type Ready, a status other
    than True and reason PodCompleted; a Failed condition exactly when
    there is such an entry and the phase is anything else. *)
Theorem pod_result_layout u :
  let phase := GetStringField (Object u) ".status.phase" "unknown" in
  let cs := GetConditions (Object u) in
  (exists terminals status suffix,
      podConditions u
      = (terminals ++ [ {| Type_ := ConditionReady; Status := status;
                           Reason := "Phase: " +:+ phase +:+ suffix |} ], None)
      /\ Forall (fun c => Type_ c <> ConditionReady) terminals)
  /\ (ConditionCompleted ∈ typesOf (podConditions u)
      <-> phase = "Succeeded" /\ existsb isCompletedEntry cs = true)
  /\ (ConditionFailed ∈ typesOf (podConditions u)
      <-> phase <> "Succeeded" /\ existsb isCompletedEntry cs = true).
Proof.
  intros phase cs. unfold typesOf. rewrite podConditions_spec. cbv zeta.
  fold phase cs. cbn [fst]. split; [|split].
  - destruct (Reason (podReadyAfter cs (NewFalseCondition ConditionReady)) =? "")%string.
    + eexists _, _, "". split.
      * rewrite append_nil_r. reflexivity.
      * apply Forall_forall. intros c Hc. apply elem_of_replicate in Hc as [-> _].
        apply podTerminal_type.
    + eexists _, _, _. split; [reflexivity|].
      apply Forall_forall. intros c Hc. apply elem_of_replicate in Hc as [-> _].
      apply podTerminal_type.
  - rewrite fmap_app, fmap_replicate, elem_of_app, elem_of_replicate_pos.
    rewrite existsb_filter_length. unfold podTerminal.
    destruct (phase =? "Succeeded")%string eqn:Ep; bool_facts; simpl; split.
    + intros [[_ Hk]|Hin]; [auto|]. apply list_elem_of_singleton in Hin. discriminate.
    + intros [_ Hk]. left. auto.
    + intros [[Hc _]|Hin]; [discriminate|].
      apply list_elem_of_singleton in Hin. discriminate.
    + intros [Hp _]. contradiction.
  - rewrite fmap_app, fmap_replicate, elem_of_app, elem_of_replicate_pos.
    rewrite existsb_filter_length. unfold podTerminal.
    destruct (phase =? "Succeeded")%string eqn:Ep; bool_facts; simpl; split.
    + intros [[Hc _]|Hin]; [discriminate|].
      apply list_elem_of_singleton in Hin. discriminate.
    + intros [Hp _]. contradiction.
    + intros [[_ Hk]|Hin]; [auto|]. apply list_elem_of_singleton in Hin. discriminate.
    + intros [_ Hk]. left. auto.
Qed.

(** X17: once the generation check has passed and at least one entry read
    from [status.conditions] has type Ready, the generic evaluator returns
    one Ready condition for each such entry, in the order of the list,
    with the entry's reason; the condition is False when the entry's
    status is the string "False" and True for any other status, a missing
    or an Unknown one included. *)
Theorem generic_mirrors_ready_entries u :
  GetIntField (Object u) ".status.observedGeneration"
              (GetIntField (Object u) ".metadata.generation" (-1))
  = GetIntField (Object u) ".metadata.generation" (-1) ->
  List.filter isReadyEntry (GetConditions (Object u)) <> [] ->
  readyConditionReader u
  = ((fun c => {| Type_ := ConditionReady;
                  Status := if (strField c "status" =? "False")%string
                            then "False" else "True";
                  Reason := strField c "reason" |})
       <$> List.filter isReadyEntry (GetConditions (Object u)), None).
Proof.
  intros Hg Hne. rewrite (generic_spec u Hg).
  destruct (List.filter isReadyEntry (GetConditions (Object u))); [contradiction|].
  reflexivity.
Qed.

(** Witness for X17: the resource with two entries of type Ready. *)
Lemma generic_mirrors_ready_entries_witness :
  readyConditionReader customTwoReady
  = ([ {| Type_ := ConditionReady; Status := "True"; Reason := "Reconciled" |};
       {| Type_ := ConditionReady; Status := "False"; Reason := "Degraded" |} ], None).
Proof.
  rewrite (generic_mirrors_ready_entries customTwoReady).
  - vm_compute. reflexivity.
  - vm_compute. reflexivity.
  - vm_compute. discriminate.
Defined.

(** * Further properties of the batch loop *)

Section MoreBatch.

Context {C : Type} `{Client C}.



Lemma doLoop_app us1 us2 : forall c h rs errs,
  doLoop (us1 ++ us2) c h rs errs
  = match doLoop us1 c h rs errs with
    | (c1, h1, rs1, errs1) => doLoop us2 c1 h1 rs1 errs1
    end.
Proof.
  induction us1 as [|u us1 IH]; intros c h rs errs; simpl; [reflexivity|].
  destruct (ClientGet c _ (h u)) as [[c1 fetched] [err|]]; [apply IH|].
  destruct (IsReady _) as [conditions [err|]]; apply IH.
Qed.

(** The accumulators are only extended: the loop started on [rs] and
    [errs] yields what it yields on empty accumulators, put behind them. *)
Lemma doLoop_acc us : forall c h rs errs,
  doLoop us c h rs errs
  = match doLoop us c h [] [] with
    | (c', h', items, es) => (c', h', rs ++ items, errs ++ es)
    end.
Proof.
  induction us as [|u us IH]; intros c h rs errs; simpl.
  - rewrite !app_nil_r. reflexivity.
  - destruct (ClientGet c _ (h u)) as [[c1 fetched] [err|]].
    + rewrite IH. rewrite (IH _ _ [_] [_]).
      destruct (doLoop us c1 _ [] []) as [[[c' h'] items] es].
      rewrite <- !app_assoc. reflexivity.
    + destruct (IsReady _) as [conditions [err|]].
      * rewrite IH. rewrite (IH _ _ [_] [_]).
        destruct (doLoop us c1 _ [] []) as [[[c' h'] items] es].
        rewrite <- !app_assoc. reflexivity.
      * rewrite IH. rewrite (IH _ _ [_] []).
        destruct (doLoop us c1 _ [] []) as [[[c' h'] items] es].
        rewrite <- !app_assoc. reflexivity.
Qed.

Lemma Do_unfold (a : StatusCmd C) (h : heap) :
  Do a h
  = match doLoop (Resources a) (DynamicClient a) h [] [] with
    | (c, h', rs, errs) =>
        ((Result.Build_t rs, NewAggregate errs),
         ({| DynamicClient := c; Out := Out a ++ [banner]; Resources := Resources a |},
          h'))
    end.
Proof.
  unfold Do. cbv zeta.
  destruct (doLoop _ _ _ _ _) as [[[c h'] rs] errs].
  destruct errs; reflexivity.
Qed.

Lemma Processed_fetch_errors c h us items :
  Processed c h us items ->
  Forall (fun s => forall e, Error s = Some e ->
                     exists c0 key u0 c1 u1, ClientGet c0 key u0 = (c1, u1, Some e))
         items.
Proof.
  induction 1 as [| ? ? ? ? ? ? ? ? Hget | ? ? ? ? ? ? ? ? ? Hget Hready | ];
    constructor; try assumption; simpl.
  - intros e [= <-]. eauto 10.
  - pose proof (IsReady_no_error fetched) as Hn. rewrite Hready in Hn. discriminate Hn.
  - discriminate.
Qed.

End MoreBatch.



(** X19: a batch can be cut in two.  Running [Do] on the references
    [us1 ++ us2] gives the items of a run on [us1] followed by the items of
    a run on [us2] that starts from the client and the heap the first run
    left; the aggregate error wraps the errors of both runs in that order,
    and the client and the heap at the end are those of the second run. *)
Theorem do_concatenates {C : Type} `{Client C} (a : StatusCmd C) (h : heap) us1 us2 :
  let first := Do (withResources a us1) h in
  let second := Do (withResources first.2.1 us2) first.2.2 in
  let whole := Do (withResources a (us1 ++ us2)) h in
  Result.Resources whole.1.1
  = Result.Resources first.1.1 ++ Result.Resources second.1.1
  /\ whole.1.2
     = NewAggregate (omap Error (Result.Resources first.1.1)
                     ++ omap Error (Result.Resources second.1.1))
  /\ DynamicClient whole.2.1 = DynamicClient second.2.1
  /\ whole.2.2 = second.2.2.
Proof.
  cbv zeta. rewrite !Do_unfold. cbn [Resources DynamicClient withResources].
  rewrite doLoop_app.
  destruct (doLoop us1 (DynamicClient a) h [] []) as [[[c1 h1] rs1] errs1] eqn:H1.
  cbn [fst snd Resources DynamicClient withResources Result.Resources].
  rewrite doLoop_acc.
  destruct (doLoop us2 c1 h1 [] []) as [[[c2 h2] rs2] errs2] eqn:H2.
  cbn [fst snd Resources DynamicClient Result.Resources].
  apply doLoop_spec in H1 as (items1 & E1 & E1' & _ & _).
  apply doLoop_spec in H2 as (items2 & E2 & E2' & _ & _).
  simpl in E1, E1', E2, E2'. subst.
  split; [reflexivity|]. split; [reflexivity|]. split; reflexivity.
Qed.

(** X20: when no fetch fails, nothing fails.  With a client whose [Get]
    never returns an error, [Do] returns a nil error, and every item has a
    nil error and conditions among which [GetCondition] finds a Ready
    condition. *)
Theorem do_succeeds_when_fetches_do {C : Type} `{Client C} (a : StatusCmd C) (h : heap) :
  (forall c key u, (ClientGet c key u).2 = None) ->
  (Do a h).1.2 = None
  /\ Forall (fun s => Error s = None
                      /\ exists r, GetCondition (Conditions s) ConditionReady = Some r)
            (Result.Resources (Do a h).1.1).
Proof.
  intros Hok. rewrite Do_unfold.
  destruct (doLoop _ _ _ _ _) as [[[c h'] rs] errs] eqn:Hrun.
  cbn [fst snd Result.Resources].
  apply doLoop_spec in Hrun as (items & -> & -> & _ & Hp). simpl.
  assert (Hall : Forall (fun s => Error s = None
                      /\ exists r, GetCondition (Conditions s) ConditionReady = Some r)
                   items).
  { clear -Hok Hp.
    induction Hp as [| ? ? ? ? ? ? ? ? Hget | ? ? ? ? ? ? ? ? ? Hget Hready
                     | ? ? ? ? ? ? ? ? Hget Hready ]; constructor; try assumption.
    - pose proof (Hok c {| Namespace := GetNamespace (h u); Name := GetName (h u) |} (h u))
        as Hn. rewrite Hget in Hn. discriminate Hn.
    - pose proof (IsReady_no_error fetched) as Hn. rewrite Hready in Hn. discriminate Hn.
    - simpl. split; [reflexivity|].
      destruct (readiness_reported_IsReady fetched) as [_ (r & Hr & _)].
      rewrite Hready in Hr. eauto. }
  split; [|exact Hall].
  assert (He : omap Error items = []).
  { clear -Hall. induction Hall as [|s items [Hs _] _ IH]; [reflexivity|].
    simpl. rewrite Hs. exact IH. }
  rewrite He. reflexivity.
Qed.

(** Witness for X20: three live objects behind a client that finds all. *)
Lemma do_succeeds_witness :
  (Do {| DynamicClient := 0%nat; Out := []; Resources := [0; 1; 2]%nat |} liveHeap).1.2
  = None.
Proof.
  apply (do_succeeds_when_fetches_do
           {| DynamicClient := 0%nat; Out := []; Resources := [0; 1; 2]%nat |} liveHeap).
  intros c key u. reflexivity.
Defined.

(** X21: evaluation never fails, so every error in a result is a fetch
    error: an item carries an error only if some call of the client's
    [Get] returned exactly that error. *)
Theorem do_errors_are_fetch_errors {C : Type} `{Client C} (a : StatusCmd C) (h : heap) :
  Forall (fun s => forall e, Error s = Some e ->
                     exists c0 key u0 c1 u1, ClientGet c0 key u0 = (c1, u1, Some e))
         (Result.Resources (Do a h).1.1).
Proof.
  rewrite Do_unfold.
  destruct (doLoop _ _ _ _ _) as [[[c h'] rs] errs] eqn:Hrun.
  cbn [fst Result.Resources].
  apply doLoop_spec in Hrun as (items & -> & _ & _ & Hp). simpl.
  eapply Processed_fetch_errors, Hp.
Qed.

(** * The prune resource *)

Section Prune.

Variable key : string.

Lemma pruneLoop_spec resources : forall count result,
  pruneLoop key resources count result
  = (count + Z.of_nat (length (List.filter (hasInventory key) resources)),
     match last (List.filter (hasInventory key) resources) with
     | Some res => Some res
     | None => result
     end).
Proof.
  induction resources as [|res rest IH]; intros count result.
  - simpl. rewrite Z.add_0_r. reflexivity.
  - cbn [pruneLoop List.filter].
    destruct (GetAnnotations res !! key) as [a|] eqn:Ea.
    + assert (Hh : hasInventory key res = true)
        by (unfold hasInventory; rewrite Ea; reflexivity).
      rewrite Hh, IH. f_equal; [cbn [length]; lia|].
      destruct (List.filter (hasInventory key) rest) as [|r l] eqn:E;
        [reflexivity|].
      change (last (res :: r :: l)) with (last (r :: l)).
      destruct (last (r :: l)) eqn:El; [reflexivity|].
      apply last_None in El. discriminate El.
    + assert (Hh : hasInventory key res = false)
        by (unfold hasInventory; rewrite Ea; reflexivity).
      rewrite Hh. apply IH.
Qed.

End Prune.

(** X22: [GetPruneResources] returns the one resource that carries the
    inventory annotation: nil and no error when no resource carries it,
    that resource when exactly one does, and an error and no resource when
    two or more do. *)
Theorem GetPruneResources_outcomes key resources :
  GetPruneResources key resources
  = match List.filter (hasInventory key) resources with
    | [] => (None, None)
    | [res] => (Some res, None)
    | _ :: _ :: _ =>
        (None, Some "found multiple resources with inventory annotations")
    end.
Proof.
  unfold GetPruneResources. rewrite pruneLoop_spec.
  destruct (List.filter (hasInventory key) resources) as [|r [|r' l]].
  - reflexivity.
  - reflexivity.
  - cbn [length].
    replace (0 + Z.of_nat (S (S (length l))) =? 0)%Z with false
      by (symmetry; apply Z.eqb_neq; lia).
    replace (0 + Z.of_nat (S (S (length l))) >? 1)%Z with true
      by (symmetry; apply Z.gtb_lt; lia).
    reflexivity.
Qed.

(** Three resources of which the second is the inventory, then a fourth
    that is one too; an annotation whose value is not a string voids all
    annotations of its resource. *)
Example TestGetPruneResources :
  let key := "kustomize.config.k8s.io/Inventory" in
  let plain := configMap "settings" [("owner", VString "team")] in
  let inventory := configMap "inventory" [(key, VString "{}")] in
  let other := configMap "inventory2" [(key, VString "{}")] in
  let broken := configMap "broken" [(key, VString "{}"); ("n", VInteger KInt64 1)] in
  GetPruneResources key [] = (None, None)
  /\ GetPruneResources key [plain; inventory; podNoStatus] = (Some inventory, None)
  /\ GetPruneResources key [plain; inventory; other]
     = (None, Some "found multiple resources with inventory annotations")
  /\ GetPruneResources key [broken; plain] = (None, None).
Proof. vm_compute. auto. Qed.

(** * The workload cases of the package's tests *)

Example TestStsStatus :
  IsReady stsBadStatus
  = ([ {| Type_ := ConditionReady; Status := "False";
          Reason := "Waiting for requested replicas. Replicas: 0/1" |} ], None)
  /\ IsReady stsOK
     = ([ {| Type_ := ConditionReady; Status := "True";
             Reason := "All replicas scheduled as expected. Replicas: 4" |} ], None)
  /\ IsReady stsLessCurrent
     = ([ {| Type_ := ConditionReady; Status := "False";
             Reason := "Waiting for replicas to become current. current: 2/4" |} ],
        None).
Proof. vm_compute. auto. Qed.

Example TestDeploymentStatus :
  IsReady depOK
  = ([ {| Type_ := ConditionReady; Status := "True";
          Reason := "Deployment is available. Replicas: 1" |} ], None)
  /\ IsReady depNotAvailable
     = ([ {| Type_ := ConditionReady; Status := "False";
             Reason := "Deployment is not Available" |} ], None).
Proof. vm_compute. auto. Qed.

Example TestReplicasetStatus :
  IsReady rsOK1
  = ([ {| Type_ := ConditionReady; Status := "True";
          Reason := "ReplicaSet is available. Replicas: 2" |} ], None)
  /\ IsReady rsReplicaFailure
     = ([ {| Type_ := ConditionReady; Status := "False";
             Reason := "Replica Failure condition. Check Pods" |} ], None).
Proof. vm_compute. auto. Qed.

Example TestServiceStatus :
  IsReady (serviceLB [])
  = ([ {| Type_ := ConditionReady; Status := "False";
          Reason := "ClusterIP not set. Service type: LoadBalancer" |} ], None)
  /\ IsReady (serviceLB [("clusterIP", VString "1.2.3.4")])
     = ([ {| Type_ := ConditionReady; Status := "True";
             Reason := "ClusterIP: 1.2.3.4" |} ], None).
Proof. vm_compute. auto. Qed.

(** Witness for X10: the ready Deployment of the tests has as many
    available replicas as its default of one requested replica. *)
Lemma deployment_ready_iff_witness :
  GetIntField (Object depOK) ".spec.replicas" 1
  <= GetIntField (Object depOK) ".status.availableReplicas" 0.
Proof.
  apply (proj2 (deployment_ready_iff depOK)).
  eexists. vm_compute. reflexivity.
Defined.

(** Witness for X21: the error of the second item of the example batch
    was returned by the client. *)
Lemma do_errors_are_fetch_errors_witness :
  exists (c0 : gmap string Unstructured) key u0 c1 u1,
    ClientGet c0 key u0 = (c1, u1, Some (ClientError "gone not found")).
Proof.
  pose proof (do_errors_are_fetch_errors exampleCmd exampleHeap) as Hall.
  rewrite Forall_forall in Hall.
  apply (Hall {| Resource := 1%nat; Conditions := [];
                 Error := Some (ClientError "gone not found") |}).
  - apply list_elem_of_In. vm_compute. right. left. reflexivity.
  - reflexivity.
Defined.
